(** * Incorporation filing processor (entity_filer.filing_processors.incorporation_filing)

    A shallow embedding of the queue consumer that applies an incorporation
    filing to the business registry: the corporate-number client
    [get_next_corp_num], the aggregate builder [update_business_info], the
    affiliation reconciler [update_affiliation], the name-reservation consumer
    [consume_nr] and the orchestrator [process].

    Python values are modelled by [json]; exceptions by [exc]; a statement
    that may raise by [res]; code that talks to the outside world by the
    monad [M], which threads the remote services' state and the trace of the
    calls issued, and keeps both when an exception is raised. *)

From Stdlib Require Import ZArith List String Ascii Bool Lia.
Import ListNotations.
Local Open Scope string_scope.
Local Open Scope Z_scope.
Set Warnings "-register-all".

(** ** Python values *)

(** The values a decoded JSON document is made of.  Objects are association
    lists in insertion order, as Python dicts are; numbers are integers
    (fractional numbers do not occur in the payloads of this processor). *)
Inductive json : Type :=
| JNull
| JBool (b : bool)
| JNum (n : Z)
| JStr (s : string)
| JArr (items : list json)
| JObj (fields : list (string * json)).

(** The exception classes the processor raises or meets. [ConnectionError]
    stands for [requests.exceptions.ConnectionError] and its subclasses,
    [OtherException] for any other subclass of [Exception]. *)
Inductive exc : Type :=
| QueueException (msg : string)
| KeyError (key : string)
| TypeError
| AttributeError
| ValueError
| ConnectionError
| OtherException (name : string).

Inductive res (A : Type) : Type :=
| Ok (a : A)
| Raise (e : exc).
Arguments Ok {A} a.
Arguments Raise {A} e.

Definition is_KeyError (e : exc) : bool :=
  match e with KeyError _ => true | _ => false end.

Definition is_ConnectionError (e : exc) : bool :=
  match e with ConnectionError => true | _ => false end.

Module Py.

(** Truth value of a Python object: [None], [False], [0], [''], [[]] and
    [{}] are falsy. *)
Definition truthy (v : json) : bool :=
  match v with
  | JNull => false
  | JBool b => b
  | JNum n => negb (n =? 0)
  | JStr s => negb (String.eqb s "")
  | JArr l => match l with [] => false | _ => true end
  | JObj kvs => match kvs with [] => false | _ => true end
  end.

Definition truthy_str (s : option string) : bool :=
  match s with
  | None => false
  | Some s => negb (String.eqb s "")
  end.

Fixpoint lookup (k : string) (kvs : list (string * json)) : option json :=
  match kvs with
  | [] => None
  | (k', v) :: rest => if String.eqb k k' then Some v else lookup k rest
  end.

(** [d[k] = v] on a dict: an existing key keeps its place. *)
Fixpoint store (k : string) (v : json) (kvs : list (string * json))
  : list (string * json) :=
  match kvs with
  | [] => [(k, v)]
  | (k', v') :: rest =>
      if String.eqb k k' then (k, v) :: rest else (k', v') :: store k v rest
  end.

(** [v[k]] with a string key. *)
Definition getitem (v : json) (k : string) : res json :=
  match v with
  | JObj kvs => match lookup k kvs with
                | Some x => Ok x
                | None => Raise (KeyError k)
                end
  | _ => Raise TypeError
  end.

(** [v[k] = x] with a string key; the updated container is returned. *)
Definition setitem (v : json) (k : string) (x : json) : res json :=
  match v with
  | JObj kvs => Ok (JObj (store k x kvs))
  | _ => Raise TypeError
  end.

(** [v.get(k)] and [v.get(k, None)]. *)
Definition get (v : json) (k : string) : res json :=
  match v with
  | JObj kvs => match lookup k kvs with
                | Some x => Ok x
                | None => Ok JNull
                end
  | _ => Raise AttributeError
  end.

(** [v.items()]. *)
Definition items (v : json) : res (list (string * json)) :=
  match v with
  | JObj kvs => Ok kvs
  | _ => Raise AttributeError
  end.

Fixpoint chars (s : string) : list json :=
  match s with
  | EmptyString => []
  | String c s' => JStr (String c EmptyString) :: chars s'
  end.

(** The elements [for x in v] runs over. *)
Definition iter (v : json) : res (list json) :=
  match v with
  | JArr l => Ok l
  | JObj kvs => Ok (map (fun kv => JStr (fst kv)) kvs)
  | JStr s => Ok (chars s)
  | _ => Raise TypeError
  end.

(** [copy.deepcopy]: values are immutable trees here, so the copy is the
    value itself; what matters is that later stores go to the copy. *)
Definition deepcopy (v : json) : json := v.

(** [s[2:]]. *)
Definition drop2 (s : string) : string :=
  match s with
  | String _ (String _ rest) => rest
  | _ => ""
  end.

(** *** Decimal rendering of integers *)

Definition digit_char (d : Z) : ascii := ascii_of_nat (48 + Z.to_nat d).

Fixpoint digits_aux (fuel : nat) (n : Z) (acc : string) : string :=
  match fuel with
  | O => acc
  | S fuel' =>
      let acc' := String (digit_char (n mod 10)) acc in
      if n / 10 =? 0 then acc' else digits_aux fuel' (n / 10) acc'
  end.

(** Decimal digits of a natural number, without leading zeros. *)
Definition digits (n : Z) : string :=
  digits_aux (S (Z.to_nat (Z.log2 n))) n "".

(** [str(n)] for an [int]. *)
Definition str_int (n : Z) : string :=
  if n <? 0 then "-" ++ digits (- n) else digits n.

Fixpoint zeros (k : nat) : string :=
  match k with
  | O => ""
  | S k' => String "0" (zeros k')
  end.

Definition zfill (width : nat) (s : string) : string :=
  zeros (width - String.length s) ++ s.

(** [f'{n:07d}']: sign-aware zero padding to a width of 7 characters. *)
Definition format_07d (n : Z) : string :=
  if n <? 0 then "-" ++ zfill 6 (digits (- n)) else zfill 7 (digits n).

(** Reading a string of decimal digits back. *)
Definition digit_val (c : ascii) : Z := Z.of_nat (nat_of_ascii c) - 48.

Definition is_digit (c : ascii) : bool :=
  (0 <=? digit_val c) && (digit_val c <=? 9).

Fixpoint value_acc (acc : Z) (s : string) : Z :=
  match s with
  | EmptyString => acc
  | String c s' => value_acc (10 * acc + digit_val c) s'
  end.

Definition value (s : string) : Z := value_acc 0 s.

Fixpoint all_digits (s : string) : bool :=
  match s with
  | EmptyString => true
  | String c s' => is_digit c && all_digits s'
  end.

End Py.

(** ** The outside world

    Everything the processor reaches over the network or through the ORM is
    a service whose answers the processor does not control.  A service call
    takes the world to a new world and either returns or raises. *)

(** What [requests.post] and [requests.patch] return: [body] is what
    [resp.json()] evaluates to (it raises [ValueError] on a body that is not
    JSON). *)
Record Response : Type := mkResponse {
  status_code : Z;
  body : res json
}.

(** A [RegistrationBootstrap] row. *)
Record Bootstrap : Type := mkBootstrap {
  bs_account : json;
  bs_identifier : json
}.

(** HTTPStatus.OK and HTTPStatus.CREATED. *)
Definition HTTP_OK : Z := 200.
Definition HTTP_CREATED : Z := 201.

(** The texts handed to [sentry_sdk.capture_message]; each constructor is
    one f-string of the source with the values it interpolates. *)
Inductive sentry_message : Type :=
| UnableToAffiliate (business_identifier : option string) (filing_id : Z)
| AffiliationError (filing_id : Z) (err : exc)
| ConsumeNRError (filing_id : Z).

(** The calls the processor issues, in the order it issues them. *)
Inductive event : Type :=
| EvPost (url : string)
| EvLogError (msg : string)
| EvFindBootstrap (temp_reg : option string)
| EvCreateAffiliation (account business_registration business_name
                       corp_type_code : json)
| EvDeleteAffiliation (account business_registration : json)
| EvGetBearerToken
| EvPatch (url authorization : string) (data : json)
| EvSentry (m : sentry_message).

Definition is_outbound (e : event) : bool :=
  match e with
  | EvPost _ | EvCreateAffiliation _ _ _ _ | EvDeleteAffiliation _ _
  | EvGetBearerToken | EvPatch _ _ _ => true
  | EvLogError _ | EvFindBootstrap _ | EvSentry _ => false
  end.

Definition is_delete (e : event) : bool :=
  match e with EvDeleteAffiliation _ _ => true | _ => false end.

Definition is_sentry (e : event) : bool :=
  match e with EvSentry _ => true | _ => false end.

Definition count (p : event -> bool) (tr : list event) : nat :=
  List.length (filter p tr).

Record Services (W : Type) : Type := mkServices {
  (** current_app.config["COLIN_API"] *)
  COLIN_API : string;
  (** current_app.config.get('NAMEX_API') *)
  NAMEX_API : option string;
  (** requests.post(url) *)
  requests_post : string -> W -> res Response * W;
  (** requests.patch(url=..., headers=..., data=..., timeout=...) *)
  requests_patch : string -> string -> json -> W -> res Response * W;
  (** RegistrationBootstrap.find_by_identifier *)
  find_by_identifier : option string -> W -> res (option Bootstrap) * W;
  (** AccountService.create_affiliation *)
  create_affiliation : json -> json -> json -> json -> W -> res Z * W;
  (** AccountService.delete_affiliation *)
  delete_affiliation : json -> json -> W -> res Z * W;
  (** AccountService.get_bearer_token *)
  get_bearer_token : W -> res (option string) * W;
  (** int(s) for a str *)
  int_of_str : string -> option Z;
  (** str(v) for a list or a dict *)
  repr_container : json -> string
}.
Arguments COLIN_API {W} _.
Arguments NAMEX_API {W} _.
Arguments requests_post {W} _ _ _.
Arguments requests_patch {W} _ _ _ _ _.
Arguments find_by_identifier {W} _ _ _.
Arguments create_affiliation {W} _ _ _ _ _ _.
Arguments delete_affiliation {W} _ _ _ _.
Arguments get_bearer_token {W} _ _.
Arguments int_of_str {W} _ _.
Arguments repr_container {W} _ _.

(** ** The monad of the processor *)

Section Monad.
Context {W : Type}.

(** The state: the world and the trace of calls so far. *)
Definition St : Type := (W * list event)%type.

Definition M (A : Type) : Type := St -> res A * St.

Definition ret {A} (a : A) : M A := fun s => (Ok a, s).

Definition raise {A} (e : exc) : M A := fun s => (Raise e, s).

Definition bind {A B} (m : M A) (k : A -> M B) : M B :=
  fun s => match m s with
           | (Ok a, s') => k a s'
           | (Raise e, s') => (Raise e, s')
           end.

(** A pure computation that may raise. *)
Definition lift {A} (r : res A) : M A := fun s => (r, s).

(** [try: m except <classes selected by handles> as e: handler e]. *)
Definition try_except {A} (m : M A) (handles : exc -> bool)
           (handler : exc -> M A) : M A :=
  fun s => match m s with
           | (Ok a, s') => (Ok a, s')
           | (Raise e, s') =>
               if handles e then handler e s' else (Raise e, s')
           end.

Definition emit (e : event) : M unit :=
  fun s => (Ok tt, (fst s, (snd s ++ [e])%list)).

(** An outside call: the event is recorded, then the world answers. *)
Definition call {A} (e : event) (f : W -> res A * W) : M A :=
  fun s => let (r, w') := f (fst s) in (r, (w', (snd s ++ [e])%list)).

End Monad.

Notation "x <- m ;; k" := (bind m (fun x => k))
  (at level 61, m at next level, right associativity).
Notation "m ;;; k" := (bind m (fun _ => k))
  (at level 61, right associativity).

Definition rbind {A B} (r : res A) (k : A -> res B) : res B :=
  match r with
  | Ok a => k a
  | Raise e => Raise e
  end.

Notation "x <~ r ;; k" := (rbind r (fun x => k))
  (at level 61, r at next level, right associativity).

(** ** Data model *)

(** A [datetime]; [utcoffset] is the offset of an aware datetime in whole
    minutes, [None] for a naive one. *)
Record datetime : Type := mkDatetime {
  year : Z; month : Z; day : Z;
  hour : Z; minute : Z; second : Z; microsecond : Z;
  utcoffset : option Z
}.

(** [datetime.isoformat()]: YYYY-MM-DDTHH:MM:SS[.ffffff][+HH:MM]. *)
Definition isoformat (d : datetime) : string :=
  Py.zfill 4 (Py.digits (year d)) ++ "-" ++
  Py.zfill 2 (Py.digits (month d)) ++ "-" ++
  Py.zfill 2 (Py.digits (day d)) ++ "T" ++
  Py.zfill 2 (Py.digits (hour d)) ++ ":" ++
  Py.zfill 2 (Py.digits (minute d)) ++ ":" ++
  Py.zfill 2 (Py.digits (second d)) ++
  (if microsecond d =? 0 then ""
   else "." ++ Py.zfill 6 (Py.digits (microsecond d))) ++
  match utcoffset d with
  | None => ""
  | Some off =>
      (if off <? 0 then "-" else "+") ++
      Py.zfill 2 (Py.digits (Z.abs off / 60)) ++ ":" ++
      Py.zfill 2 (Py.digits (Z.abs off mod 60))
  end.

(** The [Filing] row: [filing_json] is the stored payload ([_filing_json]). *)
Record Filing : Type := mkFiling {
  filing_id : Z;
  temp_reg : option string;
  filing_json : json;
  effective_date : option datetime
}.

Definition set_filing_json (f : Filing) (j : json) : Filing :=
  mkFiling (filing_id f) (temp_reg f) j (effective_date f).

Section Aggregate.
Context {Office Party PartyRole ShareClass Alias : Type}.

(** The [Business] aggregate with the collections the processor fills. *)
Record Business : Type := mkBusiness {
  business_id : option Z;
  identifier : option string;
  legal_name : json;
  legal_type : json;
  founding_date : option datetime;
  offices : list Office;
  party_roles : list PartyRole;
  share_classes : list ShareClass;
  aliases : list Alias
}.

(** [Business()]: a fresh, unsaved row. *)
Definition new_Business : Business :=
  mkBusiness None None JNull JNull None [] [] [] [].

Definition set_info (b : Business) (i : option string) (n t : json)
           (d : option datetime) : Business :=
  mkBusiness (business_id b) i n t d
             (offices b) (party_roles b) (share_classes b) (aliases b).

Definition append_office (b : Business) (o : Office) : Business :=
  mkBusiness (business_id b) (identifier b) (legal_name b) (legal_type b)
             (founding_date b) (offices b ++ [o])%list (party_roles b)
             (share_classes b) (aliases b).

Definition append_party_role (b : Business) (r : PartyRole) : Business :=
  mkBusiness (business_id b) (identifier b) (legal_name b) (legal_type b)
             (founding_date b) (offices b) (party_roles b ++ [r])%list
             (share_classes b) (aliases b).

Definition append_share_class (b : Business) (c : ShareClass) : Business :=
  mkBusiness (business_id b) (identifier b) (legal_name b) (legal_type b)
             (founding_date b) (offices b) (party_roles b)
             (share_classes b ++ [c])%list (aliases b).

Definition set_aliases (b : Business) (l : list Alias) : Business :=
  mkBusiness (business_id b) (identifier b) (legal_name b) (legal_type b)
             (founding_date b) (offices b) (party_roles b)
             (share_classes b) l.

(** Modelled from the spec: the module [filing_components] ([create_office],
    [create_party], [create_role], [create_share_class] and
    [aliases.update_aliases]) is not among the sources.  Following section
    4.2 of the specification, each is a pure, deterministic mapping from a
    sub-object of the filing JSON to a child entity (it may raise), and
    [update_aliases] touches nothing of the business but its aliases. *)
Record Components : Type := mkComponents {
  create_office : Business -> string -> json -> res Office;
  create_party : option Z -> json -> res Party;
  create_role : Party -> json -> res PartyRole;
  create_share_class : json -> res ShareClass;
  update_aliases : Business -> json -> res (list Alias)
}.

End Aggregate.

Arguments Business : clear implicits.
Arguments Components : clear implicits.

Definition json_of_str (s : option string) : json :=
  match s with
  | None => JNull
  | Some s => JStr s
  end.

(** ** The processor *)

Section Processor.
Context {W : Type} (svc : Services W).
Context {Office Party PartyRole ShareClass Alias : Type}.
Context (cmp : Components Office Party PartyRole ShareClass Alias).

Local Abbreviation Biz := (Business Office PartyRole ShareClass Alias).

(** [str(v)], as an f-string renders a value. *)
Definition py_str (v : json) : string :=
  match v with
  | JNull => "None"
  | JBool true => "True"
  | JBool false => "False"
  | JNum n => Py.str_int n
  | JStr s => s
  | JArr _ | JObj _ => repr_container svc v
  end.

(** [int(v)]. *)
Definition py_int (v : json) : res Z :=
  match v with
  | JNum n => Ok n
  | JBool b => Ok (if b then 1 else 0)
  | JStr s => match int_of_str svc s with
              | Some n => Ok n
              | None => Raise ValueError
              end
  | JNull | JArr _ | JObj _ => Raise TypeError
  end.

(** Retrieve the next available sequential corp-num from COLIN. *)
Definition get_next_corp_num (business_type : json) : M (option string) :=
  resp <- try_except
            (let url := COLIN_API svc ++ "/" ++ py_str business_type in
             r <- call (EvPost url) (requests_post svc url) ;;
             ret (Some r))
            is_ConnectionError
            (fun _ =>
               emit (EvLogError ("Failed to connect to " ++ COLIN_API svc)) ;;;
               ret None) ;;
  match resp with
  | None => ret None
  | Some resp =>
      if status_code resp =? 200 then
        j <- lift (body resp) ;;
        v <- lift (Py.getitem j "corpNum") ;;
        new_corpnum <- lift (py_int v) ;;
        if negb (new_corpnum =? 0) && (new_corpnum <=? 9999999) then
          ret (Some (py_str business_type ++ Py.format_07d new_corpnum))
        else ret None
      else ret None
  end.

(** Format and update the business entity from incorporation filing. *)
Definition update_business_info (corp_num : option string)
           (business : option Biz) (business_info filing : json)
           (filing_rec : option Filing) : res (option Biz) :=
  match corp_num, business, filing_rec with
  | Some corp, Some b, Some rec =>
      if negb (String.eqb corp "") && Py.truthy business_info
         && Py.truthy filing then
        legal_name <~ Py.get business_info "legalName" ;;
        let name := if Py.truthy legal_name then legal_name
                    else JStr (Py.drop2 corp ++ " B.C. LTD.") in
        legal_type <~ Py.get business_info "legalType" ;;
        Ok (Some (set_info b (Some corp) name legal_type
                           (effective_date rec)))
      else Ok None
  | _, _, _ => Ok None
  end.

Definition in_success (rv : Z) : bool :=
  (rv =? HTTP_OK) || (rv =? HTTP_CREATED).

(** [bootstrap.account] and [bootstrap.identifier]; the lookup may have
    found no row. *)
Definition attr {A} (b : option Bootstrap) (f : Bootstrap -> A) : res A :=
  match b with
  | Some b => Ok (f b)
  | None => Raise AttributeError
  end.

(** Create an affiliation for the business and remove the bootstrap. *)
Definition update_affiliation (business : Biz) (filing : Filing) : M unit :=
  try_except
    (bootstrap <- call (EvFindBootstrap (temp_reg filing))
                       (find_by_identifier svc (temp_reg filing)) ;;
     account <- lift (attr bootstrap bs_account) ;;
     let ident := json_of_str (identifier business) in
     rv <- call (EvCreateAffiliation account ident (legal_name business)
                                     (legal_type business))
                (create_affiliation svc account ident (legal_name business)
                                    (legal_type business)) ;;
     locals <-
       (if negb (in_success rv) then
          account <- lift (attr bootstrap bs_account) ;;
          deaffiliation <- call (EvDeleteAffiliation account ident)
                                (delete_affiliation svc account ident) ;;
          emit (EvSentry (UnableToAffiliate (identifier business)
                                            (filing_id filing))) ;;;
          ret (Some deaffiliation, None)
        else
          account <- lift (attr bootstrap bs_account) ;;
          bs_ident <- lift (attr bootstrap bs_identifier) ;;
          old_bs_affiliation <-
            call (EvDeleteAffiliation account bs_ident)
                 (delete_affiliation svc account bs_ident) ;;
          new_bs_affiliation <-
            call (EvCreateAffiliation account bs_ident ident (JStr "TMP"))
                 (create_affiliation svc account bs_ident ident
                                     (JStr "TMP")) ;;
          let reaffiliate := in_success new_bs_affiliation
                             && (old_bs_affiliation =? HTTP_OK) in
          ret (None, Some reaffiliate)) ;;
     let deaffiliation : option Z := fst locals in
     let reaffiliate : option bool := snd locals in
     if negb (in_success rv)
        || match deaffiliation with
           | Some d => negb (d =? HTTP_OK)
           | None => false
           end
        || match reaffiliate with
           | Some r => negb r
           | None => false
           end
     then raise (QueueException "")
     else ret tt)
    (fun _ => true)
    (fun err => emit (EvSentry (AffiliationError (filing_id filing) err))).

(** [''.join([a, b])]: both must be [str]. *)
Definition join2 (a : option string) (b : json) : res string :=
  match a, b with
  | Some a, JStr b => Ok (a ++ b)
  | _, _ => Raise TypeError
  end.

(** [AccountService.BEARER + token]. *)
Definition bearer (token : option string) : res string :=
  match token with
  | Some t => Ok ("Bearer " ++ t)
  | None => Raise TypeError
  end.

(** [filing_json['filing']['incorporationApplication']['nameRequest']['nrNumber']] *)
Definition nr_number (filing_json : json) : res json :=
  f <~ Py.getitem filing_json "filing" ;;
  ia <~ Py.getitem f "incorporationApplication" ;;
  nr <~ Py.getitem ia "nameRequest" ;;
  Py.getitem nr "nrNumber".

(** The statements inside the [try] of [consume_nr]. *)
Definition consume_nr_body (business : Biz) (filing : Filing) : M unit :=
  nr_num <- lift (nr_number (filing_json filing)) ;;
  bootstrap <- call (EvFindBootstrap (temp_reg filing))
                    (find_by_identifier svc (temp_reg filing)) ;;
  let namex_svc_url := NAMEX_API svc in
  token <- call EvGetBearerToken (get_bearer_token svc) ;;
  let data := JObj [("consume",
                     JObj [("corpNum",
                            json_of_str (identifier business))])] in
  url <- lift (join2 namex_svc_url nr_num) ;;
  auth <- lift (bearer token) ;;
  rv <- call (EvPatch url auth data) (requests_patch svc url auth data) ;;
  (if negb (status_code rv =? HTTP_OK)
   then raise (QueueException "") else ret tt) ;;;
  account <- lift (attr bootstrap bs_account) ;;
  _ <- call (EvDeleteAffiliation account nr_num)
            (delete_affiliation svc account nr_num) ;;
  ret tt.

(** Update the nr to a consumed state. *)
Definition consume_nr (business : Biz) (filing : Filing) : M unit :=
  try_except
    (consume_nr_body business filing)
    (fun _ => true)
    (fun err =>
       if is_KeyError err then ret tt
       else emit (EvSentry (ConsumeNRError (filing_id filing)))).

(** [for x in l: b = f(b, x)], stopping at the first exception. *)
Fixpoint fold_res {A B} (f : B -> A -> res B) (l : list A) (b : B) : res B :=
  match l with
  | [] => Ok b
  | x :: rest => b' <~ f b x ;; fold_res f rest b'
  end.

Definition attach_office (b : Biz) (kv : string * json) : res Biz :=
  office <~ create_office cmp b (fst kv) (snd kv) ;;
  Ok (append_office b office).

Definition attach_role (party : Party) (b : Biz) (role_type : json)
  : res Biz :=
  rt <~ Py.get role_type "roleType" ;;
  ad <~ Py.get role_type "appointmentDate" ;;
  cd <~ Py.get role_type "cessationDate" ;;
  let role := JObj [("roleType", rt); ("appointmentDate", ad);
                    ("cessationDate", cd)] in
  party_role <~ create_role cmp party role ;;
  Ok (append_party_role b party_role).

Definition attach_party (b : Biz) (party_info : json) : res Biz :=
  party <~ create_party cmp (business_id b) party_info ;;
  roles <~ Py.get party_info "roles" ;;
  roles <~ Py.iter roles ;;
  fold_res (attach_role party) roles b.

Definition attach_share_class (b : Biz) (share_class_info : json)
  : res Biz :=
  share_class <~ create_share_class cmp share_class_info ;;
  Ok (append_share_class b share_class).

(** [root[k1][k2][k3] = v], on the tree [root]. *)
Definition setitem3 (root : json) (k1 k2 k3 : string) (v : json)
  : res json :=
  a <~ Py.getitem root k1 ;;
  b <~ Py.getitem a k2 ;;
  b' <~ Py.setitem b k3 v ;;
  a' <~ Py.setitem a k2 b' ;;
  Py.setitem root k1 a'.

(** [d.isoformat()] on an attribute that may be [None]. *)
Definition isoformat_opt (d : option datetime) : res string :=
  match d with
  | Some d => Ok (isoformat d)
  | None => Raise AttributeError
  end.

(** The steps of [process] after the aggregate is built: offices, parties
    with their roles, share classes, name translations. *)
Definition attach_offices (business : Biz) (incorp_filing : json)
  : res Biz :=
  offices <~ Py.get incorp_filing "offices" ;;
  offices <~ Py.items offices ;;
  fold_res attach_office offices business.

Definition attach_parties (business : Biz) (incorp_filing : json)
  : res Biz :=
  parties <~ Py.get incorp_filing "parties" ;;
  if Py.truthy parties then
    parties <~ Py.iter parties ;;
    fold_res attach_party parties business
  else Ok business.

Definition attach_share_classes (business : Biz) (incorp_filing : json)
  : res Biz :=
  share_classes <~ Py.getitem incorp_filing "shareClasses" ;;
  if Py.truthy share_classes then
    share_classes <~ Py.iter share_classes ;;
    fold_res attach_share_class share_classes business
  else Ok business.

Definition attach_aliases (business : Biz) (incorp_filing : json)
  : res Biz :=
  name_translations <~ Py.get incorp_filing "nameTranslations" ;;
  if Py.truthy name_translations then
    l <~ update_aliases cmp business name_translations ;;
    Ok (set_aliases business l)
  else Ok business.

Definition attach_children (business : Biz) (incorp_filing : json)
  : res Biz :=
  business <~ attach_offices business incorp_filing ;;
  business <~ attach_parties business incorp_filing ;;
  business <~ attach_share_classes business incorp_filing ;;
  attach_aliases business incorp_filing.

Definition finalize (business : Biz) (filing_rec : Filing)
  : res (Biz * Filing) :=
  let ia_json := Py.deepcopy (filing_json filing_rec) in
  ia_json <~ setitem3 ia_json "filing" "business" "identifier"
                      (json_of_str (identifier business)) ;;
  founding <~ isoformat_opt (founding_date business) ;;
  ia_json <~ setitem3 ia_json "filing" "business" "foundingDate"
                      (JStr founding) ;;
  Ok (business, set_filing_json filing_rec ia_json).

(** Process the incoming incorporation filing. *)
Definition process (business : option Biz) (filing : json)
           (filing_rec : Filing) : M (Biz * Filing) :=
  incorp_filing <- lift (Py.get filing "incorporationApplication") ;;
  if negb (Py.truthy incorp_filing) then
    raise (QueueException
             ("IA legal_filing:incorporationApplication missing from "
              ++ Py.str_int (filing_id filing_rec)))
  else if (match business with Some _ => true | None => false end) then
    raise (QueueException
             ("Business Already Exist: IA legal_filing:incorporationApplication "
              ++ Py.str_int (filing_id filing_rec)))
  else
    business_info <- lift (Py.get incorp_filing "nameRequest") ;;
    legal_type <- lift (Py.getitem business_info "legalType") ;;
    corp_num <- get_next_corp_num legal_type ;;
    if negb (Py.truthy_str corp_num) then
      raise (QueueException
               ("incorporationApplication "
                ++ Py.str_int (filing_id filing_rec)
                ++ " unable to get a business registration number."))
    else
      business <- lift (update_business_info corp_num (Some new_Business)
                                             business_info incorp_filing
                                             (Some filing_rec)) ;;
      match business with
      | None =>
          raise (QueueException
                   ("IA incorporationApplication "
                    ++ Py.str_int (filing_id filing_rec)
                    ++ ", Unable to create business."))
      | Some business =>
          business <- lift (attach_children business incorp_filing) ;;
          lift (finalize business filing_rec)
      end.

End Processor.

(** ** Vocabulary of the statements *)

Section Vocabulary.
Context {W : Type} (svc : Services W).

(** The allocator answered 200 with a body whose [corpNum] converts to the
    integer [n]. *)
Definition allocated (out : res Response) (n : Z) : Prop :=
  exists resp j v,
    out = Ok resp /\ status_code resp = 200 /\ body resp = Ok j
    /\ Py.getitem j "corpNum" = Ok v /\ py_int svc v = Ok n.

(** The URL [get_next_corp_num] posts to for a business-type code. *)
Definition allocator_url (business_type : string) : string :=
  COLIN_API svc ++ "/" ++ business_type.

End Vocabulary.

(** What [consume_nr] records for an exception raised inside its [try]. *)
Definition monitored (filing : Filing) (e : exc) : list event :=
  if is_KeyError e then [] else [EvSentry (ConsumeNRError (filing_id filing))].

(** Two states of a business with the same identifier and founding date. *)
Definition same_core {Office PartyRole ShareClass Alias : Type}
           (b b' : Business Office PartyRole ShareClass Alias) : Prop :=
  identifier b' = identifier b /\ founding_date b' = founding_date b.

(** Reading [root[k1][k2][k3]] back from a stored payload. *)
Definition getitem3 (root : json) (k1 k2 k3 : string) : res json :=
  a <~ Py.getitem root k1 ;;
  b <~ Py.getitem a k2 ;;
  Py.getitem b k3.

(** The [filing.business] sub-object of a stored payload. *)
Definition business_section (root : json) : res json :=
  f <~ Py.getitem root "filing" ;;
  Py.getitem f "business".

(** The stored payload has no [filing.business]: reading it fails on a
    missing key. *)
Definition lacks_business (root : json) : Prop :=
  exists k, business_section root = Raise (KeyError k).

(** ** A scripted world

    Services that answer every call with a fixed outcome, and components
    that keep the JSON they were built from; used to run the processor on
    concrete filings. *)
Module Demo.

Definition services (post patch : res Response)
           (boot : res (option Bootstrap)) (create delete : res Z)
           (token : res (option string)) : Services unit :=
  mkServices unit
    "https://colin.example/api/v1/businesses"
    (Some "https://namex.example/api/v1/requests/")
    (fun _ w => (post, w))
    (fun _ _ _ w => (patch, w))
    (fun _ w => (boot, w))
    (fun _ _ _ _ w => (create, w))
    (fun _ _ w => (delete, w))
    (fun w => (token, w))
    (fun _ => None)
    (fun _ => "<container>").

Definition reply (status : Z) (j : json) : res Response :=
  Ok (mkResponse status (Ok j)).

Definition bootstrap : Bootstrap :=
  mkBootstrap (JNum 7) (JStr "Tb31yQIuBw").

(** The allocator answers 200 with [corp_num]; every other service
    succeeds. *)
Definition happy (corp_num : Z) : Services unit :=
  services (reply 200 (JObj [("corpNum", JNum corp_num)]))
           (reply 200 (JObj []))
           (Ok (Some bootstrap)) (Ok 201) (Ok 200) (Ok (Some "token")).

(** The accounts service answers every call with the status [rv]. *)
Definition accounts (rv : Z) : Services unit :=
  services (reply 200 (JObj [])) (reply 200 (JObj []))
           (Ok (Some bootstrap)) (Ok rv) (Ok 200) (Ok (Some "token")).

(** The name service answers the consume request with [status]. *)
Definition namex (status : Z) : Services unit :=
  services (reply 200 (JObj [])) (reply status (JObj []))
           (Ok (Some bootstrap)) (Ok 201) (Ok 200) (Ok (Some "token")).

Definition components
  : Components (string * json) json (json * json) json json :=
  mkComponents
    (fun _ office_type addresses => Ok (office_type, addresses))
    (fun _ party_info => Ok party_info)
    (fun party role_info => Ok (party, role_info))
    (fun share_class_info => Ok share_class_info)
    (fun _ name_translations => Py.iter name_translations).

Definition Biz : Type :=
  Business (string * json) (json * json) json json.

Definition start : @St unit := (tt, []).

Definition epoch : datetime := mkDatetime 1970 1 1 0 0 0 0 (Some 0).

Definition name_request : json := JObj [("legalType", JStr "BC")].

Definition incorporation (fields : list (string * json)) : json :=
  JObj [("header", JObj [("name", JStr "incorporationApplication")]);
        ("incorporationApplication", JObj fields)].

Definition office : json :=
  JObj [("registeredOffice",
         JObj [("mailingAddress", JObj [("addressCity", JStr "Victoria")])])].

Definition party : json :=
  JObj [("officer", JObj [("firstName", JStr "Joe")]);
        ("roles", JArr [JObj [("roleType", JStr "Director")]])].

Definition share_class : json :=
  JObj [("name", JStr "Class A"); ("maxNumberOfShares", JNum 100)].

(** A complete incorporation application, as in section 8 of the
    specification. *)
Definition full_filing : json :=
  incorporation [("nameRequest", name_request);
                 ("offices", office);
                 ("parties", JArr [party]);
                 ("shareClasses", JArr [share_class])].

Definition stored (business : list (string * json)) (filing : json) : json :=
  match filing with
  | JObj fields => JObj [("filing", JObj (fields ++ [("business", JObj business)])%list)]
  | _ => JNull
  end.

Definition record (j : json) : Filing :=
  mkFiling 15 (Some "Tb31yQIuBw") j (Some epoch).

Definition some_business : Biz :=
  mkBusiness (Some 1) (Some "BC1234567") (JStr "1234567 B.C. LTD.")
             (JStr "BC") (Some epoch) [] [] [] [].

(** The run of section 8 of the specification: the full filing, the
    allocator answering corpNum 42. *)
Definition full_record : Filing := record (stored [] full_filing).

Definition incorporated : res (Biz * Filing) * @St unit :=
  Eval vm_compute in
    process (happy 42) components None full_filing full_record start.

Definition incorporated_business : Biz :=
  Eval vm_compute in
    match fst incorporated with
    | Ok (b, _) => b
    | Raise _ => new_Business
    end.

Definition incorporated_record : Filing :=
  Eval vm_compute in
    match fst incorporated with
    | Ok (_, r) => r
    | Raise _ => full_record
    end.

(** Filings with a section missing. *)
Definition no_offices : json :=
  incorporation [("nameRequest", name_request);
                 ("parties", JArr [party]);
                 ("shareClasses", JArr [share_class])].

Definition no_parties : json :=
  incorporation [("nameRequest", name_request);
                 ("offices", office);
                 ("shareClasses", JArr [share_class])].

Definition no_share_classes : json :=
  incorporation [("nameRequest", name_request);
                 ("offices", office);
                 ("parties", JArr [party])].

Definition no_name_request : json :=
  incorporation [("offices", office);
                 ("parties", JArr [party]);
                 ("shareClasses", JArr [share_class])].

Definition no_application : json :=
  JObj [("header", JObj [("name", JStr "incorporationApplication")])].

Definition empty_application : json := incorporation [].

(** A stored payload without [filing.business]. *)
Definition stored_without_business (filing : json) : json :=
  JObj [("filing", filing)].

End Demo.

(** ** Effects over any vocabulary of events

    The monad of the processor again, for the code whose calls are not among
    [event]: the post-processing step and the HTTP resource. *)
Module Eff.
Section Eff.
Context {W E : Type}.

Definition St : Type := (W * list E)%type.

Definition M (A : Type) : Type := St -> res A * St.

Definition ret {A} (a : A) : M A := fun s => (Ok a, s).

Definition raise {A} (e : exc) : M A := fun s => (Raise e, s).

Definition bind {A B} (m : M A) (k : A -> M B) : M B :=
  fun s => match m s with
           | (Ok a, s') => k a s'
           | (Raise e, s') => (Raise e, s')
           end.

Definition lift {A} (r : res A) : M A := fun s => (r, s).

Definition try_except {A} (m : M A) (handles : exc -> bool)
           (handler : exc -> M A) : M A :=
  fun s => match m s with
           | (Ok a, s') => (Ok a, s')
           | (Raise e, s') =>
               if handles e then handler e s' else (Raise e, s')
           end.

Definition emit (e : E) : M unit :=
  fun s => (Ok tt, (fst s, (snd s ++ [e])%list)).

Definition call {A} (e : E) (f : W -> res A * W) : M A :=
  fun s => let (r, w') := f (fst s) in (r, (w', (snd s ++ [e])%list)).

End Eff.
End Eff.

Notation "x <-- m ;; k" := (Eff.bind m (fun x => k))
  (at level 61, m at next level, right associativity).

(** ** Post-processing *)

(** The calls of [post_process]. *)
Inductive post_event : Type :=
| PEvUpdateProfile (business_identifier : option string) (contact_point : json)
| PEvSentry (filing_id : Z) (err : json).

Definition is_profile_update (e : post_event) : bool :=
  match e with PEvUpdateProfile _ _ => true | PEvSentry _ _ => false end.

Definition is_post_sentry (e : post_event) : bool :=
  match e with PEvSentry _ _ => true | PEvUpdateProfile _ _ => false end.

(** The classes [suppress(IndexError, KeyError, TypeError)] swallows. *)
Definition suppressed (e : exc) : bool :=
  match e with
  | KeyError _ | TypeError => true
  | OtherException name => String.eqb name "IndexError"
  | _ => false
  end.

Section PostProcessor.
Context {W : Type}.
Context {Office PartyRole ShareClass Alias : Type}.
Local Abbreviation Biz := (Business Office PartyRole ShareClass Alias).

(** What [post_process] reaches outside this module: the [json] property of
    the [Filing] model and [business_profile.update_business_profile], whose
    result is the error it reports ([None] when there is none). *)
Record ProfileService : Type := mkProfileService {
  filing_json_property : Filing -> res json;
  update_business_profile : Biz -> json -> W -> res json * W
}.

Context (prof : ProfileService).

(** [filing.json['filing']['incorporationApplication']['contactPoint']] *)
Definition contact_point (filing : Filing) : res json :=
  j <~ filing_json_property prof filing ;;
  f <~ Py.getitem j "filing" ;;
  ia <~ Py.getitem f "incorporationApplication" ;;
  Py.getitem ia "contactPoint".

(** Post processing activities for incorporations. *)
Definition post_process (business : Biz) (filing : Filing)
  : @Eff.M W post_event unit :=
  Eff.try_except
    (cp <-- Eff.lift (contact_point filing) ;;
     err <-- Eff.call (PEvUpdateProfile (identifier business) cp)
                      (update_business_profile prof business cp) ;;
     Eff.emit (PEvSentry (filing_id filing) err))
    suppressed
    (fun _ => Eff.ret tt).

End PostProcessor.

Arguments ProfileService : clear implicits.

(** ** The business resource of the API (legal_api.resources.business) *)

(** The calls of [BusinessResource]. *)
Inductive api_event : Type :=
| AEvFindBusiness (identifier : string)
| AEvCreateBootstrap (account : json)
| AEvRegisterBootstrap (bootstrap : Bootstrap) (business_name : json)
| AEvDeleteBootstrap (bootstrap : Bootstrap)
| AEvPutFiling (identifier : json).

Definition is_bootstrap_delete (e : api_event) : bool :=
  match e with AEvDeleteBootstrap _ => true | _ => false end.

Definition is_store_lookup (e : api_event) : bool :=
  match e with AEvFindBusiness _ => true | _ => false end.

(** HTTPStatus.BAD_REQUEST, NOT_FOUND and SERVICE_UNAVAILABLE. *)
Definition HTTP_BAD_REQUEST : Z := 400.
Definition HTTP_NOT_FOUND : Z := 404.
Definition HTTP_SERVICE_UNAVAILABLE : Z := 503.

(** What the resource reaches outside its module.  [create_bootstrap] gives
    [Some] exactly when its result is a [RegistrationBootstrap], and
    [register_bootstrap] gives [Some] exactly when its result is an
    [HTTPStatus]; [ia_name] is
    [Filing.FILINGS['incorporationApplication']['name']]. *)
Record Registry (W Row : Type) : Type := mkRegistry {
  babel : string -> string;
  ia_name : string;
  find_business : string -> W -> res (option Row) * W;
  business_json : Row -> res json;
  create_bootstrap : json -> W -> res (option Bootstrap) * W;
  register_bootstrap : Bootstrap -> json -> W -> res (option Z) * W;
  delete_bootstrap : Bootstrap -> W -> res unit * W;
  put_filing : json -> W -> res (json * Z) * W
}.
Arguments babel {W Row} _ _.
Arguments ia_name {W Row} _.
Arguments find_business {W Row} _ _ _.
Arguments business_json {W Row} _ _.
Arguments create_bootstrap {W Row} _ _ _.
Arguments register_bootstrap {W Row} _ _ _ _.
Arguments delete_bootstrap {W Row} _ _ _.
Arguments put_filing {W Row} _ _ _.

(** [s.startswith('T')]. *)
Definition starts_with_T (s : string) : bool :=
  match s with
  | String c _ => Ascii.eqb c "T"%char
  | EmptyString => false
  end.

Definition is_exception (e : exc) : bool := true.

Definition is_TypeError_or_KeyError (e : exc) : bool :=
  match e with
  | TypeError | KeyError _ => true
  | _ => false
  end.

Section BusinessResource.
Context {W Row : Type} (reg : Registry W Row).

Local Abbreviation Api := (@Eff.M W api_event).

(** [json_input['filing']['header'][k]] *)
Definition header_field (json_input : json) (k : string) : res json :=
  f <~ Py.getitem json_input "filing" ;;
  h <~ Py.getitem f "header" ;;
  Py.getitem h k.

(** [json_input['filing']['incorporationApplication']['nameRequest']['nrNumber']] *)
Definition requested_nr (json_input : json) : res json :=
  f <~ Py.getitem json_input "filing" ;;
  ia <~ Py.getitem f "incorporationApplication" ;;
  nr <~ Py.getitem ia "nameRequest" ;;
  Py.getitem nr "nrNumber".

(** [filing_type != Filing.FILINGS['incorporationApplication']['name']] *)
Definition differs_from_ia_name (filing_type : json) : bool :=
  match filing_type with
  | JStr s => negb (String.eqb s (ia_name reg))
  | _ => true
  end.

Definition message (key text : string) : json :=
  JObj [(key, JStr text)].

(** [BusinessResource.get] *)
Definition get (identifier : string) : Api (json * Z) :=
  if starts_with_T identifier then
    Eff.ret (message "message"
                     (babel reg "No information on temp registrations."),
             HTTP_OK)
  else
    business <-- Eff.call (AEvFindBusiness identifier)
                          (find_business reg identifier) ;;
    match business with
    | None =>
        Eff.ret (message "message" (identifier ++ " not found"),
                 HTTP_NOT_FOUND)
    | Some row =>
        j <-- Eff.lift (business_json reg row) ;;
        Eff.ret (JObj [("business", j)], HTTP_OK)
    end.

(** The first [try] of [post]: the account and the check of the filing
    type. *)
Definition minimal_filing (json_input : json) : res json :=
  filing_account_id <~ header_field json_input "accountId" ;;
  filing_type <~ header_field json_input "name" ;;
  if differs_from_ia_name filing_type then Raise TypeError
  else Ok filing_account_id.

(** [BusinessResource.post], on the body [request.get_json()] gave. *)
Definition post (json_input : json) : Api (json * Z) :=
  checked <-- Eff.try_except
                (a <-- Eff.lift (minimal_filing json_input) ;;
                 Eff.ret (Some a))
                is_TypeError_or_KeyError
                (fun _ => Eff.ret None) ;;
  match checked with
  | None =>
      Eff.ret (message "error"
                       (babel reg "Requires a minimal Incorporation Filing."),
               HTTP_BAD_REQUEST)
  | Some filing_account_id =>
      bootstrap <-- Eff.call (AEvCreateBootstrap filing_account_id)
                             (create_bootstrap reg filing_account_id) ;;
      match bootstrap with
      | None =>
          Eff.ret (message "error"
                           (babel reg "Unable to create Incorporation Filing."),
                   HTTP_SERVICE_UNAVAILABLE)
      | Some bootstrap =>
          business_name <-- Eff.try_except
                              (Eff.lift (requested_nr json_input))
                              is_KeyError
                              (fun _ => Eff.ret (bs_identifier bootstrap)) ;;
          rv <-- Eff.call (AEvRegisterBootstrap bootstrap business_name)
                          (register_bootstrap reg bootstrap business_name) ;;
          match rv with
          | None =>
              _ <-- Eff.try_except
                      (Eff.call (AEvDeleteBootstrap bootstrap)
                                (delete_bootstrap reg bootstrap))
                      is_exception
                      (fun _ => Eff.ret tt) ;;
              Eff.ret (message "error"
                               (babel reg
                                      "Unable to create Incorporation Filing."),
                       HTTP_SERVICE_UNAVAILABLE)
          | Some _ =>
              Eff.call (AEvPutFiling (bs_identifier bootstrap))
                       (put_filing reg (bs_identifier bootstrap))
          end
      end
  end.

End BusinessResource.

(** ** Preparing an incorporation filing for the notification tests
    (entity-emailer, tests.unit) *)

(** [role['roleType'] == 'Completing Party'] *)
Definition is_completing_party (role_type : json) : bool :=
  match role_type with
  | JStr s => String.eqb s "Completing Party"
  | _ => false
  end.

(** The body of the inner loop of [prep_incorp_filing]: the officer of a
    party with a completing-party role gets the test address. *)
Definition mark_completing (party role : json) : res json :=
  role_type <~ Py.getitem role "roleType" ;;
  if is_completing_party role_type then
    officer <~ Py.getitem party "officer" ;;
    officer <~ Py.setitem officer "email" (JStr "comp_party@email.com") ;;
    Py.setitem party "officer" officer
  else Ok party.

(** [for role in party['roles']: ...] *)
Definition prep_party (party : json) : res json :=
  roles <~ Py.getitem party "roles" ;;
  roles <~ Py.iter roles ;;
  fold_res mark_completing roles party.

Fixpoint map_res {A B} (f : A -> res B) (l : list A) : res (list B) :=
  match l with
  | [] => Ok []
  | x :: rest => y <~ f x ;; ys <~ map_res f rest ;; Ok (y :: ys)
  end.

(** The payload [prep_incorp_filing] hands to [create_filing]: a deep copy
    of the template with the business section replaced, the completing
    parties and the contact point given their test addresses.  Only the
    elements of a list are dicts the loop can change in place. *)
Definition prep_incorp_json (template identifier : json) : res json :=
  let filing_template := Py.deepcopy template in
  f <~ Py.getitem filing_template "filing" ;;
  f <~ Py.setitem f "business" (JObj [("identifier", identifier)]) ;;
  ia <~ Py.getitem f "incorporationApplication" ;;
  parties <~ Py.getitem ia "parties" ;;
  elements <~ Py.iter parties ;;
  prepared <~ map_res prep_party elements ;;
  let parties := match parties with
                 | JArr _ => JArr prepared
                 | _ => parties
                 end in
  ia <~ Py.setitem ia "parties" parties ;;
  contact <~ Py.getitem ia "contactPoint" ;;
  contact <~ Py.setitem contact "email" (JStr "test@test.com") ;;
  ia <~ Py.setitem ia "contactPoint" contact ;;
  f <~ Py.setitem f "incorporationApplication" ia ;;
  Py.setitem filing_template "filing" f.

(** The officer of a party has the completing-party test address. *)
Definition marked (party : json) : Prop :=
  (officer <~ Py.getitem party "officer" ;; Py.getitem officer "email")
  = Ok (JStr "comp_party@email.com").

(** A role names the completing party. *)
Definition completing (role : json) : Prop :=
  exists role_type,
    Py.getitem role "roleType" = Ok role_type
    /\ is_completing_party role_type = true.

(** [party['roles']], as the loop runs over it. *)
Definition listed_roles (party : json) : res (list json) :=
  roles <~ Py.getitem party "roles" ;; Py.iter roles.

(** ** Vocabulary of the further statements *)

(** Two states of a business that differ at most in their collections. *)
Definition same_info {Office PartyRole ShareClass Alias : Type}
           (b b' : Business Office PartyRole ShareClass Alias) : Prop :=
  business_id b' = business_id b /\ identifier b' = identifier b
  /\ legal_name b' = legal_name b /\ legal_type b' = legal_type b
  /\ founding_date b' = founding_date b.

(** The number of entries of [incorp_filing['offices']]. *)
Definition office_count (incorp_filing : json) : nat :=
  match o <~ Py.get incorp_filing "offices" ;; Py.items o with
  | Ok l => List.length l
  | Raise _ => 0%nat
  end.

(** The roles [party_info.get('roles')] runs over. *)
Definition roles_of (party_info : json) : res (list json) :=
  r <~ Py.get party_info "roles" ;; Py.iter r.

Definition role_count (party_info : json) : nat :=
  match roles_of party_info with
  | Ok l => List.length l
  | Raise _ => 0%nat
  end.

(** The parties the loop of [process] runs over: none when the value is
    falsy. *)
Definition parties_of (incorp_filing : json) : res (list json) :=
  p <~ Py.get incorp_filing "parties" ;;
  if Py.truthy p then Py.iter p else Ok [].

(** The number of roles over all parties. *)
Definition party_role_count (incorp_filing : json) : nat :=
  match parties_of incorp_filing with
  | Ok l => list_sum (map role_count l)
  | Raise _ => 0%nat
  end.

(** The number of entries of [incorp_filing['shareClasses']]. *)
Definition share_class_count (incorp_filing : json) : nat :=
  match c <~ Py.getitem incorp_filing "shareClasses" ;;
        (if Py.truthy c then Py.iter c else Ok []) with
  | Ok l => List.length l
  | Raise _ => 0%nat
  end.

(** Reading [root[k1][k2]] back from a stored payload. *)
Definition getitem2 (root : json) (k1 k2 : string) : res json :=
  a <~ Py.getitem root k1 ;;
  Py.getitem a k2.

(** From [b] to [b'] nothing changed but the collections, which gained
    [no] offices, [nr] party roles and [nc] share classes. *)
Definition grows {Office PartyRole ShareClass Alias : Type}
           (b b' : Business Office PartyRole ShareClass Alias)
           (no nr nc : nat) : Prop :=
  same_info b b'
  /\ List.length (offices b') = (List.length (offices b) + no)%nat
  /\ List.length (party_roles b') = (List.length (party_roles b) + nr)%nat
  /\ List.length (share_classes b')
     = (List.length (share_classes b) + nc)%nat.

(** ** More of the scripted world *)
Module Scenario.

(** A filing that names a name request, and its record. *)
Definition nr_filing : json :=
  Demo.incorporation
    [("nameRequest",
      JObj [("legalType", JStr "BC"); ("nrNumber", JStr "NR 1234567")]);
     ("offices", Demo.office);
     ("parties", JArr [Demo.party]);
     ("shareClasses", JArr [Demo.share_class]);
     ("contactPoint", JObj [("email", JStr "no_one@never.get")])].

Definition nr_record : Filing := Demo.record (Demo.stored [] nr_filing).

(** Services without a bootstrap row. *)
Definition orphan : Services unit :=
  Demo.services (Demo.reply 200 (JObj [])) (Demo.reply 200 (JObj []))
                (Ok None) (Ok 201) (Ok 200) (Ok (Some "token")).

(** Services that give no bearer token. *)
Definition tokenless : Services unit :=
  Demo.services (Demo.reply 200 (JObj [])) (Demo.reply 200 (JObj []))
                (Ok (Some Demo.bootstrap)) (Ok 201) (Ok 200) (Ok None).

(** An allocator that cannot be reached. *)
Definition unreachable : Services unit :=
  Demo.services (Raise ConnectionError) (Demo.reply 200 (JObj []))
                (Ok (Some Demo.bootstrap)) (Ok 201) (Ok 200)
                (Ok (Some "token")).

(** A profile service that answers every update with [answer]; the [json]
    property of a filing is its stored payload. *)
Definition profile (answer : res json)
  : ProfileService unit (string * json) (json * json) json json :=
  mkProfileService (fun f => Ok (filing_json f)) (fun _ _ w => (answer, w)).

Definition post_start : @Eff.St unit post_event := (tt, []).

(** A registry that answers every call with a fixed outcome. *)
Definition registry (found : res (option json))
           (created : res (option Bootstrap)) (registered : res (option Z))
           (deleted : res unit) : Registry unit json :=
  mkRegistry unit json
    (fun text => text)
    "incorporationApplication"
    (fun _ w => (found, w))
    (fun row => Ok row)
    (fun _ w => (created, w))
    (fun _ _ w => (registered, w))
    (fun _ w => (deleted, w))
    (fun identifier w =>
       (Ok (JObj [("filing", JObj [("identifier", identifier)])], 201), w)).

Definition api_start : @Eff.St unit api_event := (tt, []).

(** The body of a request for a numbered company on account 7. *)
Definition request (application : list (string * json)) : json :=
  JObj [("filing",
         JObj (("header", JObj [("name", JStr "incorporationApplication");
                                ("accountId", JNum 7)])
               :: application))].

End Scenario.

(** * Properties *)

(** ** Decimal rendering *)

Section Decimal.
Import Py.

Lemma length_app (s t : string) :
  String.length (s ++ t) = (String.length s + String.length t)%nat.
Proof.
  induction s as [|c s IH]; simpl; [reflexivity | now rewrite IH].
Qed.

Lemma app_assoc_str (s t u : string) : (s ++ t) ++ u = s ++ t ++ u.
Proof.
  induction s as [|c s IH]; simpl; [reflexivity | now rewrite IH].
Qed.

Lemma value_acc_app (s t : string) :
  forall a, value_acc a (s ++ t) = value_acc (value_acc a s) t.
Proof.
  induction s as [|c s IH]; intros a; simpl; [reflexivity | apply IH].
Qed.

Lemma all_digits_app (s t : string) :
  all_digits (s ++ t) = all_digits s && all_digits t.
Proof.
  induction s as [|c s IH]; simpl; [reflexivity|].
  now rewrite IH, andb_assoc.
Qed.

Lemma digit_char_spec (d : Z) :
  0 <= d <= 9 ->
  digit_val (digit_char d) = d /\ is_digit (digit_char d) = true.
Proof.
  intros H.
  assert (E : d = 0 \/ d = 1 \/ d = 2 \/ d = 3 \/ d = 4 \/ d = 5 \/ d = 6
              \/ d = 7 \/ d = 8 \/ d = 9) by lia.
  repeat (destruct E as [E|E]; [subst d; split; reflexivity|]).
  subst d; split; reflexivity.
Qed.

Local Opaque digit_char digit_val is_digit Z.pow Z.div Z.modulo.

(** What [digits_aux] prepends to its accumulator: the digits of [n], at
    least one and no more than the magnitude of [n] allows. *)
Lemma digits_aux_spec (f : nat) :
  forall n acc,
    0 <= n < 2 ^ Z.of_nat (S f) ->
    exists p,
      digits_aux (S f) n acc = p ++ acc
      /\ all_digits p = true
      /\ value p = n
      /\ (forall k : nat, n < 10 ^ Z.of_nat k -> (1 <= k)%nat ->
                         (String.length p <= k)%nat).
Proof.
  induction f as [|f IH]; intros n acc Hn.
  - assert (Hd : n / 10 = 0) by (apply Z.div_small; simpl in Hn; lia).
    assert (Hm : n mod 10 = n) by (apply Z.mod_small; simpl in Hn; lia).
    cbn [digits_aux]. rewrite Hd, Hm. simpl (0 =? 0).
    destruct (digit_char_spec n) as [Hv Hi]; [simpl in Hn; lia|].
    exists (String (digit_char n) ""). cbn [append String.length all_digits]. unfold value. cbn [value_acc].
    rewrite Hv, Hi. repeat split; auto; intros; lia.
  - remember (S f) as f' eqn:Ef. cbn [digits_aux].
    pose proof (Z.mod_pos_bound n 10 ltac:(lia)) as Hmod.
    destruct (digit_char_spec (n mod 10)) as [Hv Hi]; [lia|].
    destruct (Z.eqb_spec (n / 10) 0) as [Hd|Hd].
    + exists (String (digit_char (n mod 10)) ""). cbn [append String.length all_digits]. unfold value. cbn [value_acc].
      rewrite Hv, Hi.
      assert (n = n mod 10) by (pose proof (Z.div_mod n 10 ltac:(lia)); lia).
      repeat split; auto; intros; lia.
    + assert (Hq : 0 <= n / 10 < 2 ^ Z.of_nat f').
      { split; [apply Z.div_pos; lia|].
        apply Z.div_lt_upper_bound; [lia|].
        replace (Z.of_nat (S f')) with (Z.succ (Z.of_nat f')) in Hn by lia.
        rewrite Z.pow_succ_r in Hn by lia. lia. }
      subst f'.
      destruct (IH (n / 10) (String (digit_char (n mod 10)) acc) Hq)
        as (p & Hp & Ha & Hval & Hlen).
      exists (p ++ String (digit_char (n mod 10)) "").
      rewrite Hp, app_assoc_str. cbn [append]. split; [reflexivity|].
      rewrite all_digits_app. cbn [all_digits]. rewrite Ha, Hi. split; [reflexivity|].
      unfold value in *. rewrite value_acc_app, Hval. cbn [value_acc]. rewrite Hv.
      split; [pose proof (Z.div_mod n 10 ltac:(lia)); lia|].
      intros k Hk Hk1. rewrite length_app. cbn [String.length].
      destruct k as [|k]; [lia|].
      destruct k as [|k].
      { simpl in Hk. exfalso. apply Hd. apply Z.div_small. lia. }
      assert (String.length p <= S k)%nat; [|lia].
      apply Hlen; [|lia].
      apply Z.div_lt_upper_bound; [lia|].
      replace (Z.of_nat (S (S k))) with (Z.succ (Z.of_nat (S k))) in Hk by lia.
      rewrite Z.pow_succ_r in Hk by lia. lia.
Qed.

Lemma digits_spec (n : Z) :
  0 <= n ->
  all_digits (digits n) = true
  /\ value (digits n) = n
  /\ (forall k : nat, n < 10 ^ Z.of_nat k -> (1 <= k)%nat ->
                     (String.length (digits n) <= k)%nat).
Proof.
  intros Hn. unfold digits.
  destruct (digits_aux_spec (Z.to_nat (Z.log2 n)) n "") as (p & Hp & H).
  - split; [assumption|].
    replace (Z.of_nat (S (Z.to_nat (Z.log2 n)))) with (Z.succ (Z.log2 n))
      by (pose proof (Z.log2_nonneg n); lia).
    destruct (Z.eq_dec n 0) as [->|Hz]; [reflexivity|].
    apply Z.log2_spec. lia.
  - rewrite Hp.
    assert (E : p ++ "" = p).
    { clear. induction p as [|c p IH]; simpl; [reflexivity | now rewrite IH]. }
    rewrite E. exact H.
Qed.

Lemma zeros_spec (k : nat) :
  String.length (zeros k) = k
  /\ all_digits (zeros k) = true
  /\ forall s, value (zeros k ++ s) = value s.
Proof.
  induction k as [|k (Hl & Ha & Hv)]; simpl.
  - auto.
  - rewrite Hl. repeat split; auto.
Qed.

(** On the numbers the allocator guard lets through, the rendering is
    exactly seven decimal digits that read back as the number. *)
Lemma format_07d_spec (n : Z) :
  0 <= n <= 9999999 ->
  String.length (format_07d n) = 7%nat
  /\ all_digits (format_07d n) = true
  /\ value (format_07d n) = n.
Proof.
  intros Hn. unfold format_07d.
  destruct (Z.ltb_spec n 0) as [?|_]; [lia|].
  destruct (digits_spec n) as (Ha & Hv & Hl); [lia|].
  specialize (Hl 7%nat ltac:(simpl; lia) ltac:(lia)).
  unfold zfill.
  destruct (zeros_spec (7 - String.length (digits n))) as (Zl & Za & Zv).
  rewrite length_app, Zl, all_digits_app, Za, Ha, Zv, Hv.
  repeat split; auto. lia.
Qed.

Lemma drop2_substring (s : string) :
  drop2 s = substring 2 (String.length s - 2) s.
Proof.
  destruct s as [|a [|b s]]; simpl; try reflexivity.
  rewrite Nat.sub_0_r.
  induction s as [|c s IH]; simpl; [reflexivity | now rewrite <- IH].
Qed.

End Decimal.

Example digits_42 : Py.digits 42 = "42".
Proof. reflexivity. Qed.

Example str_int_negative : Py.str_int (-305) = "-305".
Proof. reflexivity. Qed.

Example format_07d_42 : Py.format_07d 42 = "0000042".
Proof. reflexivity. Qed.

Example format_07d_negative : Py.format_07d (-42) = "-000042".
Proof. reflexivity. Qed.

Example format_07d_wide : Py.format_07d 123456789 = "123456789".
Proof. reflexivity. Qed.

Example isoformat_epoch : isoformat Demo.epoch = "1970-01-01T00:00:00+00:00".
Proof. reflexivity. Qed.

(** ** The number allocator client *)

Ltac unfold_monad :=
  unfold bind, ret, raise, lift, try_except, emit, call in *.

Section Allocator.
Context {W : Type} (svc : Services W).

Lemma get_next_corp_num_run (bt : string) (s : St) :
  get_next_corp_num svc (JStr bt) s =
  let s' := (snd (requests_post svc (allocator_url svc bt) (fst s)),
             (snd s ++ [EvPost (allocator_url svc bt)])%list) in
  match fst (requests_post svc (allocator_url svc bt) (fst s)) with
  | Raise ConnectionError =>
      (Ok None,
       (fst s', (snd s' ++ [EvLogError ("Failed to connect to "
                                        ++ COLIN_API svc)])%list))
  | Raise e => (Raise e, s')
  | Ok resp =>
      if status_code resp =? 200 then
        match j <~ body resp ;; v <~ Py.getitem j "corpNum" ;; py_int svc v with
        | Ok n => if negb (n =? 0) && (n <=? 9999999)
                  then (Ok (Some (bt ++ Py.format_07d n)), s')
                  else (Ok None, s')
        | Raise e => (Raise e, s')
        end
      else (Ok None, s')
  end.
Proof.
  unfold get_next_corp_num, allocator_url. unfold_monad. cbn [py_str].
  destruct (requests_post svc _ (fst s)) as [[resp|e] w']; cbn.
  - destruct (status_code resp =? 200); [|reflexivity].
    destruct (body resp) as [j|e]; cbn; [|reflexivity].
    destruct (Py.getitem j "corpNum") as [v|e]; cbn; [|reflexivity].
    destruct (py_int svc v) as [n|e]; cbn; [|reflexivity].
    destruct (negb (n =? 0) && (n <=? 9999999)); reflexivity.
  - destruct e; reflexivity.
Qed.

(** C3 (amended): for every business-type code, [get_next_corp_num] returns
    the type code followed by the allocated number zero-padded to seven
    digits when the allocator responds 200 with a corpNum between 1 and
    9,999,999; it returns none when the corpNum is 0 or exceeds 9,999,999,
    on a connection failure, and on a response whose status is not 200. *)
Theorem get_next_corp_num_contract (bt : string) (s : St) (n : Z) :
  let out := fst (requests_post svc (allocator_url svc bt) (fst s)) in
  let r := fst (get_next_corp_num svc (JStr bt) s) in
  (allocated svc out n -> 1 <= n <= 9999999 ->
   exists p, r = Ok (Some (bt ++ p))
             /\ String.length p = 7%nat
             /\ Py.all_digits p = true
             /\ Py.value p = n)
  /\ (allocated svc out n -> n = 0 \/ 9999999 < n -> r = Ok None)
  /\ (out = Raise ConnectionError -> r = Ok None)
  /\ (forall resp, out = Ok resp -> status_code resp <> 200 -> r = Ok None).
Proof.
  intros out r. subst r. rewrite get_next_corp_num_run. fold out.
  repeat split.
  - intros (resp & j & v & -> & Hs & Hb & Hv & Hn) Hrange. cbn zeta.
    rewrite Hs, Hb. cbn [rbind Z.eqb Pos.eqb]. rewrite Hv. cbn [rbind].
    rewrite Hn.
    replace (negb (n =? 0) && (n <=? 9999999)) with true
      by (symmetry; apply andb_true_iff; split;
          [apply negb_true_iff, Z.eqb_neq | apply Z.leb_le]; lia).
    exists (Py.format_07d n).
    destruct (format_07d_spec n) as (Hl & Ha & Hval); [lia|].
    repeat split; assumption.
  - intros (resp & j & v & -> & Hs & Hb & Hv & Hn) Hrange. cbn zeta.
    rewrite Hs, Hb. cbn [rbind Z.eqb Pos.eqb]. rewrite Hv. cbn [rbind].
    rewrite Hn.
    replace (negb (n =? 0) && (n <=? 9999999)) with false; [reflexivity|].
    symmetry. apply andb_false_iff.
    destruct Hrange as [->|Hbig]; [left; reflexivity|].
    right. apply Z.leb_gt. lia.
  - intros ->. reflexivity.
  - intros resp -> Hs. cbn zeta.
    apply Z.eqb_neq in Hs. rewrite Hs. reflexivity.
Qed.

End Allocator.

Example corp_num_42 :
  fst (get_next_corp_num (Demo.happy 42) (JStr "BC") Demo.start)
  = Ok (Some "BC0000042").
Proof. reflexivity. Qed.

Example corp_num_8_digits :
  fst (get_next_corp_num (Demo.happy 10000000) (JStr "BC") Demo.start)
  = Ok None.
Proof. reflexivity. Qed.

Example corp_num_negative :
  fst (get_next_corp_num (Demo.happy (-5)) (JStr "BC") Demo.start)
  = Ok (Some "BC-000005").
Proof. reflexivity. Qed.

Lemma allocated_happy (k : Z) (bt : string) :
  allocated (Demo.happy k)
            (fst (requests_post (Demo.happy k)
                                (allocator_url (Demo.happy k) bt)
                                (fst Demo.start))) k.
Proof.
  exists (mkResponse 200 (Ok (JObj [("corpNum", JNum k)]))),
         (JObj [("corpNum", JNum k)]), (JNum k).
  repeat split; reflexivity.
Qed.

Lemma get_next_corp_num_contract_witness :
  allocated (Demo.happy 42)
            (fst (requests_post (Demo.happy 42)
                                (allocator_url (Demo.happy 42) "BC")
                                (fst Demo.start))) 42
  /\ 1 <= 42 <= 9999999
  /\ exists p,
      fst (get_next_corp_num (Demo.happy 42) (JStr "BC") Demo.start)
      = Ok (Some ("BC" ++ p))
      /\ String.length p = 7%nat
      /\ Py.all_digits p = true
      /\ Py.value p = 42.
Proof.
  split; [apply allocated_happy|].
  split; [lia|].
  apply (proj1 (get_next_corp_num_contract (Demo.happy 42) "BC" Demo.start 42));
    [apply allocated_happy | lia].
Defined.

(** The allocator answers 200 with corpNum 0, a number of at most 9,999,999,
    and no identifier is returned. *)
Lemma get_next_corp_num_zero :
  allocated (Demo.happy 0)
            (fst (requests_post (Demo.happy 0)
                                (allocator_url (Demo.happy 0) "BC")
                                (fst Demo.start))) 0
  /\ 0 <= 9999999
  /\ ~ (exists p,
          fst (get_next_corp_num (Demo.happy 0) (JStr "BC") Demo.start)
          = Ok (Some ("BC" ++ p))).
Proof.
  split; [apply allocated_happy|].
  split; [lia|].
  intros (p & Hp). cbv in Hp. discriminate Hp.
Qed.

(** ** The aggregate builder *)

Section Builder.
Context {Office PartyRole ShareClass Alias : Type}.
Local Abbreviation Biz := (Business Office PartyRole ShareClass Alias).

Lemma update_business_info_falsy (corp_num : option string)
      (business : option Biz) (business_info filing : json)
      (filing_rec : option Filing) :
  Py.truthy_str corp_num = false \/ business = None
  \/ Py.truthy business_info = false \/ Py.truthy filing = false
  \/ filing_rec = None ->
  update_business_info corp_num business business_info filing filing_rec
  = Ok None.
Proof.
  unfold update_business_info.
  destruct corp_num as [corp|], business as [b|], filing_rec as [rec|];
    try reflexivity.
  intros [H|[H|[H|[H|H]]]]; try discriminate H.
  - cbn in H. rewrite H. reflexivity.
  - rewrite H, andb_false_r. reflexivity.
  - rewrite H, andb_false_r. reflexivity.
Qed.

Lemma update_business_info_synthesized (corp : string) (b : Biz)
      (fields : list (string * json)) (filing : json) (rec : Filing) :
  corp <> "" -> fields <> [] -> Py.lookup "legalName" fields = None ->
  Py.truthy filing = true ->
  exists b',
    update_business_info (Some corp) (Some b) (JObj fields) filing
                         (Some rec) = Ok (Some b')
    /\ legal_name b' = JStr (Py.drop2 corp ++ " B.C. LTD.")
    /\ identifier b' = Some corp
    /\ founding_date b' = effective_date rec.
Proof.
  intros Hc Hf Hl Ht. unfold update_business_info.
  apply String.eqb_neq in Hc. rewrite Hc, Ht.
  destruct fields as [|kv fields]; [contradiction|].
  cbn [Py.truthy negb andb Py.get]. rewrite Hl. cbn [rbind Py.truthy].
  destruct (Py.lookup "legalType" (kv :: fields));
    cbn [rbind]; eexists; repeat split; reflexivity.
Qed.

(** C4: with all five arguments truthy and no legalName in business_info,
    the returned Business's legal_name is the identifier without its first
    two characters followed by ' B.C. LTD.'; for BC1234567 it is
    '1234567 B.C. LTD.'; with any argument falsy the result is none. *)
Theorem update_business_info_legal_name :
  (forall (corp : string) (b : Biz) (fields : list (string * json))
          (filing : json) (rec : Filing),
      corp <> "" -> fields <> [] -> Py.lookup "legalName" fields = None ->
      Py.truthy filing = true ->
      exists b',
        update_business_info (Some corp) (Some b) (JObj fields) filing
                             (Some rec) = Ok (Some b')
        /\ legal_name b'
           = JStr (substring 2 (String.length corp - 2) corp
                   ++ " B.C. LTD."))
  /\ (forall (b : Biz) (fields : list (string * json)) (filing : json)
             (rec : Filing),
         fields <> [] -> Py.lookup "legalName" fields = None ->
         Py.truthy filing = true ->
         exists b',
           update_business_info (Some "BC1234567") (Some b) (JObj fields)
                                filing (Some rec) = Ok (Some b')
           /\ legal_name b' = JStr "1234567 B.C. LTD.")
  /\ (forall (corp_num : option string) (business : option Biz)
             (business_info filing : json) (filing_rec : option Filing),
         Py.truthy_str corp_num = false \/ business = None
         \/ Py.truthy business_info = false \/ Py.truthy filing = false
         \/ filing_rec = None ->
         update_business_info corp_num business business_info filing
                              filing_rec = Ok None).
Proof.
  split; [|split].
  - intros corp b fields filing rec Hc Hf Hl Ht.
    destruct (update_business_info_synthesized corp b fields filing rec
                Hc Hf Hl Ht) as (b' & E & Hn & _).
    exists b'. rewrite <- drop2_substring. auto.
  - intros b fields filing rec Hf Hl Ht.
    destruct (update_business_info_synthesized "BC1234567" b fields filing
                rec ltac:(discriminate) Hf Hl Ht) as (b' & E & Hn & _).
    exists b'. auto.
  - apply update_business_info_falsy.
Qed.

End Builder.

Lemma update_business_info_legal_name_witness :
  exists b' : Demo.Biz,
    update_business_info (Some "BC1234567") (Some new_Business)
                         Demo.name_request Demo.full_filing
                         (Some (Demo.record JNull)) = Ok (Some b')
    /\ legal_name b' = JStr "1234567 B.C. LTD.".
Proof.
  apply (proj1 (proj2 update_business_info_legal_name)).
  - discriminate.
  - reflexivity.
  - reflexivity.
Defined.

(** ** The affiliation reconciler *)

Ltac case_scrutinee :=
  match goal with
  | |- context [match ?x with _ => _ end] =>
      lazymatch x with
      | context [match _ with _ => _ end] => fail
      | _ => destruct x eqn:?
      end
  end.

Section Reconciler.
Context {W : Type} (svc : Services W).
Context {Office PartyRole ShareClass Alias : Type}.
Local Abbreviation Biz := (Business Office PartyRole ShareClass Alias).

Lemma update_affiliation_returns (business : Biz) (filing : Filing)
      (s : St) :
  fst (update_affiliation svc business filing s) = Ok tt.
Proof.
  unfold update_affiliation, attr. unfold_monad. cbn.
  repeat (case_scrutinee; cbn); try reflexivity.
  all: match goal with u : unit |- _ => destruct u; reflexivity end.
Qed.

Lemma update_affiliation_cleanup (business : Biz) (filing : Filing)
      (s : St) (b : Bootstrap) (w1 w2 : W) (rv : Z) :
  find_by_identifier svc (temp_reg filing) (fst s) = (Ok (Some b), w1) ->
  create_affiliation svc (bs_account b) (json_of_str (identifier business))
                     (legal_name business) (legal_type business) w1
  = (Ok rv, w2) ->
  in_success rv = false ->
  exists tail,
    snd (snd (update_affiliation svc business filing s))
    = (snd s
       ++ [EvFindBootstrap (temp_reg filing);
           EvCreateAffiliation (bs_account b)
                               (json_of_str (identifier business))
                               (legal_name business) (legal_type business);
           EvDeleteAffiliation (bs_account b)
                               (json_of_str (identifier business))]
       ++ tail)%list
    /\ tail <> []
    /\ Forall (fun e => is_sentry e = true) tail.
Proof.
  intros Hf Hc Hrv.
  unfold update_affiliation, attr. unfold_monad. cbn.
  rewrite Hf. cbn. rewrite Hc. cbn. rewrite Hrv. cbn.
  destruct (delete_affiliation svc _ _ w2) as [[d|e] w3]; cbn.
  - eexists. repeat rewrite <- app_assoc. cbn. split; [reflexivity|].
    split; [discriminate|]. repeat constructor.
  - eexists. repeat rewrite <- app_assoc. cbn. split; [reflexivity|].
    split; [discriminate|]. repeat constructor.
Qed.

Lemma count_sentry_tail (tail : list event) :
  Forall (fun e => is_sentry e = true) tail ->
  count is_delete tail = 0%nat /\ count is_sentry tail = List.length tail.
Proof.
  unfold count. induction 1 as [|e tail He _ [IHd IHs]]; [split; reflexivity|].
  destruct e; try discriminate He. cbn. rewrite IHs. auto.
Qed.

(** C5: [update_affiliation] never propagates an exception; and whenever
    the primary affiliation-creation call returns a result code outside
    {200, 201}, exactly one cleanup deletion call, deleting the affiliation
    keyed to the new business identifier, is issued and a monitoring event
    is recorded. *)
Theorem update_affiliation_contained (business : Biz) (filing : Filing)
        (s : St) :
  fst (update_affiliation svc business filing s) = Ok tt
  /\ forall (b : Bootstrap) (w1 w2 : W) (rv : Z),
      find_by_identifier svc (temp_reg filing) (fst s)
      = (Ok (Some b), w1) ->
      create_affiliation svc (bs_account b)
                         (json_of_str (identifier business))
                         (legal_name business) (legal_type business) w1
      = (Ok rv, w2) ->
      in_success rv = false ->
      exists new,
        snd (snd (update_affiliation svc business filing s))
        = (snd s ++ new)%list
        /\ count is_delete new = 1%nat
        /\ In (EvDeleteAffiliation (bs_account b)
                                   (json_of_str (identifier business))) new
        /\ (1 <= count is_sentry new)%nat.
Proof.
  split; [apply update_affiliation_returns|].
  intros b w1 w2 rv Hf Hc Hrv.
  destruct (update_affiliation_cleanup business filing s b w1 w2 rv Hf Hc Hrv)
    as (tail & E & Hne & Hall).
  destruct (count_sentry_tail tail Hall) as [Hd Hs].
  eexists. split; [exact E|].
  unfold count in *. cbn. rewrite Hd, Hs.
  split; [reflexivity|]. split; [right; right; left; reflexivity|].
  destruct tail; [contradiction | cbn; lia].
Qed.

End Reconciler.

Example update_affiliation_refused :
  update_affiliation (Demo.accounts 400) Demo.some_business
                     (Demo.record JNull) Demo.start
  = (Ok tt,
     (tt, [EvFindBootstrap (Some "Tb31yQIuBw");
           EvCreateAffiliation (JNum 7) (JStr "BC1234567")
                               (JStr "1234567 B.C. LTD.") (JStr "BC");
           EvDeleteAffiliation (JNum 7) (JStr "BC1234567");
           EvSentry (UnableToAffiliate (Some "BC1234567") 15);
           EvSentry (AffiliationError 15 (QueueException ""))])).
Proof. reflexivity. Qed.

Lemma update_affiliation_contained_witness :
  exists new,
    snd (snd (update_affiliation (Demo.accounts 400) Demo.some_business
                                 (Demo.record JNull) Demo.start))
    = (snd Demo.start ++ new)%list
    /\ count is_delete new = 1%nat
    /\ In (EvDeleteAffiliation (JNum 7) (JStr "BC1234567")) new
    /\ (1 <= count is_sentry new)%nat.
Proof.
  apply (proj2 (update_affiliation_contained (Demo.accounts 400)
                  Demo.some_business (Demo.record JNull) Demo.start)
               Demo.bootstrap tt tt 400);
    reflexivity.
Defined.

(** ** The name-reservation consumer *)

Section Consumer.
Context {W : Type} (svc : Services W).
Context {Office PartyRole ShareClass Alias : Type}.
Local Abbreviation Biz := (Business Office PartyRole ShareClass Alias).




End Consumer.

Example consume_nr_without_number :
  consume_nr (Demo.namex 200) Demo.some_business
             (Demo.record (Demo.stored [] Demo.full_filing)) Demo.start
  = (Ok tt, Demo.start).
Proof. reflexivity. Qed.

Example consume_nr_refused :
  consume_nr (Demo.namex 500) Demo.some_business
             (Demo.record
                (Demo.stored []
                   (Demo.incorporation
                      [("nameRequest",
                        JObj [("nrNumber", JStr "NR 1234567")])])))
             Demo.start
  = (Ok tt,
     (tt, [EvFindBootstrap (Some "Tb31yQIuBw"); EvGetBearerToken;
           EvPatch "https://namex.example/api/v1/requests/NR 1234567"
                   "Bearer token"
                   (JObj [("consume", JObj [("corpNum", JStr "BC1234567")])]);
           EvSentry (ConsumeNRError 15)])).
Proof. reflexivity. Qed.

(** ** The orchestrator *)

Section Stores.
Import Py.

Lemma lookup_store_same (k : string) (v : json) (kvs : list (string * json)) :
  lookup k (store k v kvs) = Some v.
Proof.
  induction kvs as [|[k' v'] kvs IH]; cbn.
  - now rewrite String.eqb_refl.
  - destruct (String.eqb k k') eqn:E; cbn; rewrite ?String.eqb_refl, ?E; auto.
Qed.

Lemma lookup_store_other (k k' : string) (v : json)
      (kvs : list (string * json)) :
  k <> k' -> lookup k (store k' v kvs) = lookup k kvs.
Proof.
  intros Hk. apply String.eqb_neq in Hk.
  induction kvs as [|[k2 v2] kvs IH]; cbn.
  - now rewrite Hk.
  - destruct (String.eqb k' k2) eqn:E; cbn.
    + apply String.eqb_eq in E. subst k2. now rewrite Hk.
    + destruct (String.eqb k k2); auto.
Qed.

Lemma getitem_ok (v : json) (k : string) (x : json) :
  getitem v k = Ok x ->
  exists kvs, v = JObj kvs /\ lookup k kvs = Some x.
Proof.
  destruct v; cbn; try discriminate.
  destruct (lookup k fields) eqn:E; [|discriminate].
  intros [= ->]. eauto.
Qed.

(** After [root[k1][k2][k3] = v], the three keys lead to [v], the other
    keys of the innermost object lead where they led, and the object was
    there before the store. *)
Lemma setitem3_spec (root root' : json) (k1 k2 k3 : string) (v : json) :
  setitem3 root k1 k2 k3 v = Ok root' ->
  getitem3 root' k1 k2 k3 = Ok v
  /\ (forall k, k <> k3 -> getitem3 root' k1 k2 k = getitem3 root k1 k2 k)
  /\ exists a b, getitem root k1 = Ok a /\ getitem a k2 = Ok b.
Proof.
  unfold setitem3, getitem3.
  destruct (getitem root k1) as [a|e] eqn:Ha; cbn [rbind]; [|discriminate].
  destruct (getitem a k2) as [b|e] eqn:Hb; cbn [rbind]; [|discriminate].
  destruct (getitem_ok _ _ _ Ha) as (top & -> & Htop).
  destruct (getitem_ok _ _ _ Hb) as (mid & -> & Hmid).
  destruct b as [| | | | |low]; cbn [setitem rbind]; try discriminate.
  intros [= <-]. cbn [getitem rbind].
  rewrite lookup_store_same. cbn [getitem rbind].
  rewrite lookup_store_same. cbn [getitem rbind].
  rewrite lookup_store_same. split; [reflexivity|].
  split; [|eauto].
  intros k Hk. cbn [rbind getitem]. now rewrite lookup_store_other.
Qed.

End Stores.

Section Orchestrator.
Context {W : Type} (svc : Services W).
Context {Office Party PartyRole ShareClass Alias : Type}.
Context (cmp : Components Office Party PartyRole ShareClass Alias).
Local Abbreviation Biz := (Business Office PartyRole ShareClass Alias).

(** *** Attaching children leaves identifier and founding date alone *)

Lemma same_core_refl (b : Biz) : same_core b b.
Proof. split; reflexivity. Qed.

Lemma same_core_trans (a b c : Biz) :
  same_core a b -> same_core b c -> same_core a c.
Proof. intros [H1 H2] [H3 H4]. split; congruence. Qed.

Lemma fold_res_core {A} (f : Biz -> A -> res Biz) :
  (forall b x b', f b x = Ok b' -> same_core b b') ->
  forall l b b', fold_res f l b = Ok b' -> same_core b b'.
Proof.
  intros Hf l. induction l as [|x l IH]; intros b b'; cbn.
  - intros [= ->]. apply same_core_refl.
  - destruct (f b x) as [b1|e] eqn:E; cbn; [|discriminate].
    intros H. eapply same_core_trans; eauto.
Qed.

Ltac bind_ok H :=
  repeat match type of H with
         | rbind ?r _ = Ok _ =>
             let E := fresh "E" in
             destruct r eqn:E; cbn [rbind] in H; [|discriminate H]
         | (if ?c then _ else _) = Ok _ =>
             let E := fresh "E" in destruct c eqn:E
         end.

Lemma attach_office_core b kv b' :
  attach_office cmp b kv = Ok b' -> same_core b b'.
Proof.
  unfold attach_office. intros H. bind_ok H.
  injection H as <-. split; reflexivity.
Qed.

Lemma attach_role_core party b role b' :
  attach_role cmp party b role = Ok b' -> same_core b b'.
Proof.
  unfold attach_role. intros H. bind_ok H.
  injection H as <-. split; reflexivity.
Qed.

Lemma attach_party_core b info b' :
  attach_party cmp b info = Ok b' -> same_core b b'.
Proof.
  unfold attach_party. intros H. bind_ok H.
  eapply fold_res_core; [|exact H]. intros; eapply attach_role_core; eauto.
Qed.

Lemma attach_share_class_core b info b' :
  attach_share_class cmp b info = Ok b' -> same_core b b'.
Proof.
  unfold attach_share_class. intros H. bind_ok H.
  injection H as <-. split; reflexivity.
Qed.

Lemma attach_offices_core b ia b' :
  attach_offices cmp b ia = Ok b' -> same_core b b'.
Proof.
  unfold attach_offices. intros H. bind_ok H.
  eapply fold_res_core; [|exact H]. intros; eapply attach_office_core; eauto.
Qed.

Lemma attach_parties_core b ia b' :
  attach_parties cmp b ia = Ok b' -> same_core b b'.
Proof.
  unfold attach_parties. intros H. bind_ok H.
  - bind_ok H. eapply fold_res_core; [|exact H].
    intros; eapply attach_party_core; eauto.
  - injection H as <-. apply same_core_refl.
Qed.

Lemma attach_share_classes_core b ia b' :
  attach_share_classes cmp b ia = Ok b' -> same_core b b'.
Proof.
  unfold attach_share_classes. intros H. bind_ok H.
  - bind_ok H. eapply fold_res_core; [|exact H].
    intros; eapply attach_share_class_core; eauto.
  - injection H as <-. apply same_core_refl.
Qed.

Lemma attach_aliases_core b ia b' :
  attach_aliases cmp b ia = Ok b' -> same_core b b'.
Proof.
  unfold attach_aliases. intros H. bind_ok H.
  - bind_ok H. injection H as <-. split; reflexivity.
  - injection H as <-. apply same_core_refl.
Qed.

Lemma attach_children_core b ia b' :
  attach_children cmp b ia = Ok b' -> same_core b b'.
Proof.
  unfold attach_children. intros H. bind_ok H.
  eapply same_core_trans; [eapply attach_offices_core; eassumption|].
  eapply same_core_trans; [eapply attach_parties_core; eassumption|].
  eapply same_core_trans; [eapply attach_share_classes_core; eassumption|].
  eapply attach_aliases_core; eassumption.
Qed.

(** *** Finalizing the stored payload *)

Lemma finalize_spec (b b' : Biz) (rec rec' : Filing) :
  finalize b rec = Ok (b', rec') ->
  b' = b
  /\ (exists d,
        founding_date b = Some d
        /\ getitem3 (filing_json rec') "filing" "business" "identifier"
           = Ok (json_of_str (identifier b))
        /\ getitem3 (filing_json rec') "filing" "business" "foundingDate"
           = Ok (JStr (isoformat d)))
  /\ exists bz, business_section (filing_json rec) = Ok bz.
Proof.
  unfold finalize, Py.deepcopy, isoformat_opt. intros H.
  destruct (setitem3 (filing_json rec) _ _ _ _) as [j1|e] eqn:E1;
    cbn [rbind] in H; [|discriminate H].
  destruct (founding_date b) as [d|] eqn:Ed; cbn [rbind] in H;
    [|discriminate H].
  destruct (setitem3 j1 _ _ _ _) as [j2|e] eqn:E2;
    cbn [rbind] in H; [|discriminate H].
  injection H as <- <-. cbn [filing_json set_filing_json].
  destruct (setitem3_spec _ _ _ _ _ _ E1) as (G1 & _ & a & bz & Ha & Hb).
  destruct (setitem3_spec _ _ _ _ _ _ E2) as (G2 & K2 & _).
  split; [reflexivity|]. split.
  - exists d. split; [reflexivity|]. split; [|exact G2].
    rewrite K2 by discriminate. exact G1.
  - exists bz. unfold business_section. rewrite Ha. exact Hb.
Qed.

Lemma finalize_lacks (b : Biz) (rec : Filing) :
  lacks_business (filing_json rec) ->
  exists k, finalize b rec = Raise (KeyError k).
Proof.
  intros [k Hk]. exists k. unfold business_section in Hk.
  unfold finalize, setitem3, Py.deepcopy.
  destruct (Py.getitem (filing_json rec) "filing") as [f|e];
    cbn [rbind] in *; [|injection Hk as ->; reflexivity].
  rewrite Hk. reflexivity.
Qed.

(** *** The steps of [process] *)

(** The guards hold, the allocator gave [corp] and the aggregate [b0] was
    built: what remains is to attach the children and finalize. *)
Lemma process_built (filing ia info lt : json) (rec : Filing) (s s' : St)
      (corp : string) (b0 : Biz) :
  Py.get filing "incorporationApplication" = Ok ia ->
  Py.truthy ia = true ->
  Py.get ia "nameRequest" = Ok info ->
  Py.getitem info "legalType" = Ok lt ->
  get_next_corp_num svc lt s = (Ok (Some corp), s') ->
  update_business_info (Some corp) (Some new_Business) info ia (Some rec)
  = Ok (Some b0) ->
  process svc cmp None filing rec s
  = (b <~ attach_children cmp b0 ia ;; finalize b rec, s').
Proof.
  intros Hia Ht Hinfo Hlt Hcorp Hb0.
  assert (Hne : Py.truthy_str (Some corp) = true).
  { cbn. unfold update_business_info in Hb0.
    destruct (String.eqb corp ""); [discriminate Hb0 | reflexivity]. }
  unfold process. unfold_monad.
  rewrite Hia, Ht. cbn [negb]. rewrite Hinfo, Hlt, Hcorp, Hne. cbn [negb].
  rewrite Hb0.
  destruct (attach_children cmp b0 ia); reflexivity.
Qed.

(** A successful run went through every step. *)
Lemma process_success_inv (business : option Biz) (filing : json)
      (rec rec' : Filing) (s s' : St) (b : Biz) :
  process svc cmp business filing rec s = (Ok (b, rec'), s') ->
  exists ia info lt corp b0 b1,
    business = None
    /\ Py.get filing "incorporationApplication" = Ok ia
    /\ Py.truthy ia = true
    /\ Py.get ia "nameRequest" = Ok info
    /\ Py.getitem info "legalType" = Ok lt
    /\ get_next_corp_num svc lt s = (Ok (Some corp), s')
    /\ update_business_info (Some corp) (Some new_Business) info ia
                            (Some rec) = Ok (Some b0)
    /\ attach_children cmp b0 ia = Ok b1
    /\ finalize b1 rec = Ok (b, rec').
Proof.
  unfold process. unfold_monad. intros H.
  destruct (Py.get filing "incorporationApplication") as [ia|e] eqn:Hia;
    [|discriminate H].
  destruct (Py.truthy ia) eqn:Ht; cbn [negb] in H; [|discriminate H].
  destruct business as [b'|]; [discriminate H|].
  destruct (Py.get ia "nameRequest") as [info|e] eqn:Hinfo;
    [|discriminate H].
  destruct (Py.getitem info "legalType") as [lt|e] eqn:Hlt;
    [|discriminate H].
  destruct (get_next_corp_num svc lt s) as [[corp|e] s1] eqn:Hcorp;
    [|discriminate H].
  destruct (negb (Py.truthy_str corp)) eqn:Hne; [discriminate H|].
  destruct corp as [corp|]; [|discriminate Hne].
  destruct (update_business_info (Some corp) _ info ia (Some rec))
    as [[b0|]|e] eqn:Hb0; try discriminate H.
  destruct (attach_children cmp b0 ia) as [b1|e] eqn:Hb1;
    [|discriminate H].
  destruct (finalize b1 rec) as [[b2 rec2]|e] eqn:Hfin; [|discriminate H].
  injection H as <- <- <-.
  exists ia, info, lt, corp, b0, b1. repeat split; auto.
Qed.

Lemma update_business_info_core (corp : string) (b b0 : Biz)
      (info ia : json) (rec : Filing) :
  update_business_info (Some corp) (Some b) info ia (Some rec)
  = Ok (Some b0) ->
  identifier b0 = Some corp /\ founding_date b0 = effective_date rec.
Proof.
  unfold update_business_info. intros H.
  destruct (negb (String.eqb corp "") && Py.truthy info && Py.truthy ia);
    [|discriminate H].
  bind_ok H. injection H as <-. split; reflexivity.
Qed.

(** C1: whenever [process] completes successfully, reading the stored JSON
    of the returned filing record back gives filing.business.identifier
    equal to the returned Business's identifier and
    filing.business.foundingDate equal to its founding_date in ISO-8601
    form, and that founding_date is the filing record's effective_date. *)
Theorem process_round_trip (business : option Biz) (filing : json)
        (rec rec' : Filing) (s s' : St) (b : Biz) :
  process svc cmp business filing rec s = (Ok (b, rec'), s') ->
  exists corp d,
    identifier b = Some corp
    /\ effective_date rec = Some d
    /\ founding_date b = Some d
    /\ getitem3 (filing_json rec') "filing" "business" "identifier"
       = Ok (JStr corp)
    /\ getitem3 (filing_json rec') "filing" "business" "foundingDate"
       = Ok (JStr (isoformat d)).
Proof.
  intros H.
  destruct (process_success_inv _ _ _ _ _ _ _ H)
    as (ia & info & lt & corp & b0 & b1 & _ & _ & _ & _ & _ & _
        & Hb0 & Hb1 & Hfin).
  destruct (update_business_info_core _ _ _ _ _ _ Hb0) as [Hi Hd].
  destruct (attach_children_core _ _ _ Hb1) as [Hi1 Hd1].
  destruct (finalize_spec _ _ _ _ Hfin) as (-> & (d & Hfd & Gi & Gd) & _).
  exists corp, d.
  rewrite Hi1, Hi in Gi. cbn [json_of_str] in Gi.
  repeat split; try assumption; congruence.
Qed.

Lemma attach_offices_missing (b : Biz) (ia_fields : list (string * json)) :
  Py.lookup "offices" ia_fields = None ->
  attach_offices cmp b (JObj ia_fields) = Raise AttributeError.
Proof.
  intros H. unfold attach_offices. cbn [Py.get]. rewrite H. reflexivity.
Qed.

Lemma attach_parties_missing (b : Biz) (ia_fields : list (string * json)) :
  Py.lookup "parties" ia_fields = None ->
  attach_parties cmp b (JObj ia_fields) = Ok b.
Proof.
  intros H. unfold attach_parties. cbn [Py.get]. rewrite H. reflexivity.
Qed.

Lemma attach_share_classes_missing (b : Biz)
      (ia_fields : list (string * json)) :
  Py.lookup "shareClasses" ia_fields = None ->
  attach_share_classes cmp b (JObj ia_fields)
  = Raise (KeyError "shareClasses").
Proof.
  intros H. unfold attach_share_classes. cbn [Py.getitem]. rewrite H.
  reflexivity.
Qed.

(** Past the guards, the allocation and the build, a filing without the
    offices key stops [process] at the loop over the offices, whereas a
    missing parties key is skipped. *)
Lemma process_offices_unchecked (filing : json)
      (ia_fields : list (string * json)) (info lt : json) (rec : Filing)
      (s s' : St) (corp : string) (b0 : Biz) :
  Py.get filing "incorporationApplication" = Ok (JObj ia_fields) ->
  ia_fields <> [] ->
  Py.get (JObj ia_fields) "nameRequest" = Ok info ->
  Py.getitem info "legalType" = Ok lt ->
  get_next_corp_num svc lt s = (Ok (Some corp), s') ->
  update_business_info (Some corp) (Some new_Business) info (JObj ia_fields)
                       (Some rec) = Ok (Some b0) ->
  Py.lookup "offices" ia_fields = None ->
  process svc cmp None filing rec s = (Raise AttributeError, s').
Proof.
  intros Hia Hne Hinfo Hlt Hcorp Hb0 Ho.
  rewrite (process_built filing (JObj ia_fields) info lt rec s s' corp b0);
    auto.
  - unfold attach_children. rewrite attach_offices_missing by assumption.
    reflexivity.
  - destruct ia_fields; [contradiction | reflexivity].
Qed.

(** C8: for a filing that passes the early guards and whose
    incorporationApplication lacks the shareClasses key, [process] raises;
    when the identifier is allocated, the aggregate built and the offices
    and parties attached, the exception is the [KeyError] of the missing
    key. *)
Theorem process_requires_share_classes (fields ia_fields : list (string * json))
        (rec : Filing) (s : St) :
  Py.lookup "incorporationApplication" fields = Some (JObj ia_fields) ->
  ia_fields <> [] ->
  Py.lookup "shareClasses" ia_fields = None ->
  (exists e, fst (process svc cmp None (JObj fields) rec s) = Raise e)
  /\ forall info lt corp s' (b0 b1 b2 : Biz),
      Py.get (JObj ia_fields) "nameRequest" = Ok info ->
      Py.getitem info "legalType" = Ok lt ->
      get_next_corp_num svc lt s = (Ok (Some corp), s') ->
      update_business_info (Some corp) (Some new_Business) info
                           (JObj ia_fields) (Some rec) = Ok (Some b0) ->
      attach_offices cmp b0 (JObj ia_fields) = Ok b1 ->
      attach_parties cmp b1 (JObj ia_fields) = Ok b2 ->
      process svc cmp None (JObj fields) rec s
      = (Raise (KeyError "shareClasses"), s').
Proof.
  intros Hia Hne Hsc. split.
  - destruct (process svc cmp None (JObj fields) rec s)
      as [[[b rec']|e] s'] eqn:H; [|cbn; eauto].
    exfalso.
    destruct (process_success_inv _ _ _ _ _ _ _ H)
      as (ia & info & lt & corp & b0 & b1 & _ & Hget & _ & _ & _ & _
          & _ & Hb1 & _).
    cbn [Py.get] in Hget. rewrite Hia in Hget. injection Hget as <-.
    unfold attach_children in Hb1. bind_ok Hb1.
    rewrite attach_share_classes_missing in E1 by assumption.
    discriminate E1.
  - intros info lt corp s' b0 b1 b2 Hinfo Hlt Hcorp Hb0 Ho Hp.
    rewrite (process_built (JObj fields) (JObj ia_fields) info lt rec s s'
               corp b0); auto.
    + unfold attach_children. rewrite Ho. cbn [rbind]. rewrite Hp.
      cbn [rbind]. rewrite attach_share_classes_missing by assumption.
      reflexivity.
    + cbn [Py.get]. rewrite Hia. reflexivity.
    + destruct ia_fields; [contradiction | reflexivity].
Qed.

(** C9 (amended): for a filing whose incorporationApplication is a
    non-empty object without the nameRequest key, processed with no
    Business resolved, [process] raises [TypeError] (subscripting [None]
    with 'legalType') and not a [QueueException]; nothing was called. *)
Theorem process_missing_name_request
        (fields ia_fields : list (string * json)) (rec : Filing) (s : St) :
  Py.lookup "incorporationApplication" fields = Some (JObj ia_fields) ->
  ia_fields <> [] ->
  Py.lookup "nameRequest" ia_fields = None ->
  process svc cmp None (JObj fields) rec s = (Raise TypeError, s).
Proof.
  intros Hia Hne Hnr. unfold process. unfold_monad. cbn [Py.get].
  rewrite Hia. destruct ia_fields as [|kv rest]; [contradiction|].
  cbn [Py.truthy negb Py.get]. rewrite Hnr. reflexivity.
Qed.

(** C10 (amended): when the stored JSON of the filing record lacks
    filing.business and every step before the finalization succeeds (the
    guards, the allocation, the build and the attachment of the children),
    [process] raises a [KeyError]; and a successful run of [process] had
    filing.business in the stored JSON before processing. *)
Theorem process_requires_business_section (business : option Biz)
        (filing : json) (rec : Filing) (s : St) :
  (forall ia info lt corp s' (b0 b1 : Biz),
      business = None ->
      Py.get filing "incorporationApplication" = Ok ia ->
      Py.truthy ia = true ->
      Py.get ia "nameRequest" = Ok info ->
      Py.getitem info "legalType" = Ok lt ->
      get_next_corp_num svc lt s = (Ok (Some corp), s') ->
      update_business_info (Some corp) (Some new_Business) info ia
                           (Some rec) = Ok (Some b0) ->
      attach_children cmp b0 ia = Ok b1 ->
      lacks_business (filing_json rec) ->
      exists k,
        process svc cmp business filing rec s = (Raise (KeyError k), s'))
  /\ (forall b rec' s',
         process svc cmp business filing rec s = (Ok (b, rec'), s') ->
         exists bz, business_section (filing_json rec) = Ok bz).
Proof.
  split.
  - intros ia info lt corp s' b0 b1 -> Hia Ht Hinfo Hlt Hcorp Hb0 Hb1 Hl.
    destruct (finalize_lacks b1 rec Hl) as [k Hk]. exists k.
    rewrite (process_built filing ia info lt rec s s' corp b0); auto.
    rewrite Hb1. cbn [rbind]. rewrite Hk. reflexivity.
  - intros b rec' s' H.
    destruct (process_success_inv _ _ _ _ _ _ _ H)
      as (ia & info & lt & corp & b0 & b1 & _ & _ & _ & _ & _ & _
          & _ & _ & Hfin).
    destruct (finalize_spec _ _ _ _ Hfin) as (_ & _ & Hbz). exact Hbz.
Qed.

End Orchestrator.

(** ** Runs of the orchestrator in the scripted world *)

Example process_full_filing :
  process (Demo.happy 42) Demo.components None Demo.full_filing
          Demo.full_record Demo.start
  = (Ok (Demo.incorporated_business, Demo.incorporated_record),
     (tt, [EvPost "https://colin.example/api/v1/businesses/BC"])).
Proof. vm_compute. reflexivity. Qed.

Example process_full_filing_business :
  identifier Demo.incorporated_business = Some "BC0000042"
  /\ legal_name Demo.incorporated_business = JStr "0000042 B.C. LTD."
  /\ List.length (offices Demo.incorporated_business) = 1%nat
  /\ List.length (party_roles Demo.incorporated_business) = 1%nat
  /\ List.length (share_classes Demo.incorporated_business) = 1%nat
  /\ business_section (filing_json Demo.incorporated_record)
     = Ok (JObj [("identifier", JStr "BC0000042");
                 ("foundingDate", JStr "1970-01-01T00:00:00+00:00")]).
Proof. repeat split; reflexivity. Qed.

Example process_without_parties :
  exists b rec',
    fst (process (Demo.happy 42) Demo.components None Demo.no_parties
                 Demo.full_record Demo.start) = Ok (b, rec')
    /\ party_roles b = [].
Proof. do 2 eexists. split; vm_compute; reflexivity. Qed.

Lemma process_round_trip_witness :
  exists corp d,
    identifier Demo.incorporated_business = Some corp
    /\ effective_date Demo.full_record = Some d
    /\ founding_date Demo.incorporated_business = Some d
    /\ getitem3 (filing_json Demo.incorporated_record)
                "filing" "business" "identifier" = Ok (JStr corp)
    /\ getitem3 (filing_json Demo.incorporated_record)
                "filing" "business" "foundingDate" = Ok (JStr (isoformat d)).
Proof.
  apply (process_round_trip (Demo.happy 42) Demo.components None
           Demo.full_filing Demo.full_record Demo.incorporated_record
           Demo.start
           (tt, [EvPost "https://colin.example/api/v1/businesses/BC"])
           Demo.incorporated_business).
  vm_compute. reflexivity.
Defined.

Example process_already_incorporated :
  process (Demo.happy 42) Demo.components (Some Demo.some_business)
          Demo.full_filing Demo.full_record Demo.start
  = (Raise (QueueException
              "Business Already Exist: IA legal_filing:incorporationApplication 15"),
     Demo.start).
Proof. reflexivity. Qed.

(** C7: a filing that passes the early guards, gets its identifier and its
    aggregate, and whose incorporationApplication has no offices key: the
    loop over the offices runs on [None] and [process] fails with
    [AttributeError]; the missing collection is not skipped as it is for
    the parties. *)
Theorem process_missing_offices :
  process (Demo.happy 42) Demo.components None Demo.no_offices
          Demo.full_record Demo.start
  = (Raise AttributeError,
     (tt, [EvPost "https://colin.example/api/v1/businesses/BC"])).
Proof. vm_compute. reflexivity. Qed.

Lemma process_requires_share_classes_witness :
  (exists e,
      fst (process (Demo.happy 42) Demo.components None Demo.no_share_classes
                   Demo.full_record Demo.start) = Raise e)
  /\ process (Demo.happy 42) Demo.components None Demo.no_share_classes
             Demo.full_record Demo.start
     = (Raise (KeyError "shareClasses"),
        (tt, [EvPost "https://colin.example/api/v1/businesses/BC"])).
Proof.
  pose proof (process_requires_share_classes (Demo.happy 42) Demo.components
                [("header", JObj [("name", JStr "incorporationApplication")]);
                 ("incorporationApplication",
                  JObj [("nameRequest", Demo.name_request);
                        ("offices", Demo.office);
                        ("parties", JArr [Demo.party])])]
                [("nameRequest", Demo.name_request);
                 ("offices", Demo.office);
                 ("parties", JArr [Demo.party])]
                Demo.full_record Demo.start
                ltac:(reflexivity) ltac:(discriminate) ltac:(reflexivity))
    as [Hraises Hkey].
  split; [exact Hraises|].
  eapply Hkey; vm_compute; reflexivity.
Defined.

Lemma process_missing_name_request_witness :
  process (Demo.happy 42) Demo.components None Demo.no_name_request
          Demo.full_record Demo.start
  = (Raise TypeError, Demo.start).
Proof.
  apply (process_missing_name_request (Demo.happy 42) Demo.components
           [("header", JObj [("name", JStr "incorporationApplication")]);
            ("incorporationApplication",
             JObj [("offices", Demo.office);
                   ("parties", JArr [Demo.party]);
                   ("shareClasses", JArr [Demo.share_class])])]
           [("offices", Demo.office);
            ("parties", JArr [Demo.party]);
            ("shareClasses", JArr [Demo.share_class])]).
  - reflexivity.
  - discriminate.
  - reflexivity.
Defined.

(** Two filings whose incorporationApplication is present and has no
    nameRequest key, on which [process] raises a [QueueException] and no
    [TypeError]: one processed with a Business already resolved, one whose
    incorporationApplication is the empty object. *)
Lemma process_missing_name_request_guarded :
  (Py.getitem Demo.no_name_request "incorporationApplication"
   = Ok (JObj [("offices", Demo.office);
               ("parties", JArr [Demo.party]);
               ("shareClasses", JArr [Demo.share_class])])
   /\ fst (process (Demo.happy 42) Demo.components (Some Demo.some_business)
                   Demo.no_name_request Demo.full_record Demo.start)
      = Raise (QueueException
                 "Business Already Exist: IA legal_filing:incorporationApplication 15")
   /\ fst (process (Demo.happy 42) Demo.components (Some Demo.some_business)
                   Demo.no_name_request Demo.full_record Demo.start)
      <> Raise TypeError)
  /\ (Py.getitem Demo.empty_application "incorporationApplication"
      = Ok (JObj [])
      /\ fst (process (Demo.happy 42) Demo.components None
                      Demo.empty_application Demo.full_record Demo.start)
         = Raise (QueueException
                    "IA legal_filing:incorporationApplication missing from 15")
      /\ fst (process (Demo.happy 42) Demo.components None
                      Demo.empty_application Demo.full_record Demo.start)
         <> Raise TypeError).
Proof.
  repeat split; try reflexivity; vm_compute; discriminate.
Qed.

Lemma lacks_business_demo (filing : json) :
  Py.getitem filing "business" = Raise (KeyError "business") ->
  lacks_business (Demo.stored_without_business filing).
Proof.
  intros H. exists "business". unfold business_section.
  cbn [Demo.stored_without_business Py.getitem Py.lookup String.eqb
       Ascii.eqb Bool.eqb rbind].
  exact H.
Qed.

Lemma process_requires_business_section_witness :
  lacks_business (Demo.stored_without_business Demo.full_filing)
  /\ exists k,
      process (Demo.happy 42) Demo.components None Demo.full_filing
              (Demo.record (Demo.stored_without_business Demo.full_filing))
              Demo.start
      = (Raise (KeyError k),
         (tt, [EvPost "https://colin.example/api/v1/businesses/BC"])).
Proof.
  split; [apply lacks_business_demo; reflexivity|].
  eapply (proj1 (process_requires_business_section (Demo.happy 42)
                   Demo.components None Demo.full_filing
                   (Demo.record
                      (Demo.stored_without_business Demo.full_filing))
                   Demo.start)).
  - reflexivity.
  - reflexivity.
  - reflexivity.
  - reflexivity.
  - reflexivity.
  - vm_compute. reflexivity.
  - vm_compute. reflexivity.
  - vm_compute. reflexivity.
  - apply lacks_business_demo. reflexivity.
Defined.

(** A filing record whose stored JSON lacks filing.business, processed with
    a filing that has no incorporationApplication: [process] raises the
    [QueueException] of the first guard and no [KeyError]. *)
Lemma process_lacking_business_guarded :
  lacks_business (Demo.stored_without_business Demo.no_application)
  /\ fst (process (Demo.happy 42) Demo.components None Demo.no_application
                  (Demo.record
                     (Demo.stored_without_business Demo.no_application))
                  Demo.start)
     = Raise (QueueException
                "IA legal_filing:incorporationApplication missing from 15")
  /\ forall k,
      fst (process (Demo.happy 42) Demo.components None Demo.no_application
                   (Demo.record
                      (Demo.stored_without_business Demo.no_application))
                   Demo.start)
      <> Raise (KeyError k).
Proof.
  split; [apply lacks_business_demo; reflexivity|].
  split; [reflexivity|].
  intros k. vm_compute. discriminate.
Qed.

(** * Further properties of the processor *)

(** ** The number allocator client, on any type code *)

Section AllocatorEdges.
Context {W : Type} (svc : Services W).

Lemma get_next_corp_num_run_any (lt : json) (s : St) :
  get_next_corp_num svc lt s =
  let url := COLIN_API svc ++ "/" ++ py_str svc lt in
  let s' := (snd (requests_post svc url (fst s)),
             (snd s ++ [EvPost url])%list) in
  match fst (requests_post svc url (fst s)) with
  | Raise ConnectionError =>
      (Ok None,
       (fst s', (snd s' ++ [EvLogError ("Failed to connect to "
                                        ++ COLIN_API svc)])%list))
  | Raise e => (Raise e, s')
  | Ok resp =>
      if status_code resp =? 200 then
        match j <~ body resp ;; v <~ Py.getitem j "corpNum" ;; py_int svc v with
        | Ok n => if negb (n =? 0) && (n <=? 9999999)
                  then (Ok (Some (py_str svc lt ++ Py.format_07d n)), s')
                  else (Ok None, s')
        | Raise e => (Raise e, s')
        end
      else (Ok None, s')
  end.
Proof.
  unfold get_next_corp_num. unfold_monad.
  destruct (requests_post svc _ (fst s)) as [[resp|e] w']; cbn.
  - destruct (status_code resp =? 200); [|reflexivity].
    destruct (body resp) as [j|e]; cbn; [|reflexivity].
    destruct (Py.getitem j "corpNum") as [v|e]; cbn; [|reflexivity].
    destruct (py_int svc v) as [n|e]; cbn; [|reflexivity].
    destruct (negb (n =? 0) && (n <=? 9999999)); reflexivity.
  - destruct e; reflexivity.
Qed.

(** X1: Whatever the allocator does, [get_next_corp_num] sends exactly one POST,
    to COLIN_API/<type>, and never retries; it logs an error exactly when the
    POST fails to connect. *)
Theorem get_next_corp_num_single_post (lt : json) (s : St) :
  let url := COLIN_API svc ++ "/" ++ py_str svc lt in
  let final := snd (get_next_corp_num svc lt s) in
  fst final = snd (requests_post svc url (fst s))
  /\ snd final
     = (snd s
        ++ EvPost url
        :: match fst (requests_post svc url (fst s)) with
           | Raise ConnectionError =>
               [EvLogError ("Failed to connect to " ++ COLIN_API svc)]
           | _ => []
           end)%list.
Proof.
  intros url final. subst final. rewrite get_next_corp_num_run_any. fold url.
  cbn zeta.
  destruct (requests_post svc url (fst s)) as [[resp|e] w']; cbn [fst snd].
  - destruct (status_code resp =? 200); [|split; reflexivity].
    destruct (j <~ body resp;; v <~ Py.getitem j "corpNum";; py_int svc v)
      as [n|e]; [|split; reflexivity].
    destruct (negb (n =? 0) && (n <=? 9999999)); split; reflexivity.
  - destruct e; cbn [fst snd]; split; try reflexivity.
    now rewrite <- app_assoc.
Qed.

(** X2: Only a connection failure is turned into "no identifier": any other
    exception of the POST, and on a 200 response an unreadable body, a body
    without corpNum or a corpNum that is no number, is raised to the
    caller. *)
Theorem get_next_corp_num_propagates (lt : json) (s : St) :
  let out := fst (requests_post svc (COLIN_API svc ++ "/" ++ py_str svc lt)
                                (fst s)) in
  (forall e, out = Raise e -> is_ConnectionError e = false ->
             fst (get_next_corp_num svc lt s) = Raise e)
  /\ (forall resp e,
         out = Ok resp -> status_code resp = 200 ->
         (j <~ body resp ;; v <~ Py.getitem j "corpNum" ;; py_int svc v)
         = Raise e ->
         fst (get_next_corp_num svc lt s) = Raise e).
Proof.
  intros out. split.
  - intros e He Hc. rewrite get_next_corp_num_run_any. cbn zeta. fold out.
    rewrite He. destruct e; try discriminate Hc; reflexivity.
  - intros resp e Ho Hs Hb. rewrite get_next_corp_num_run_any. cbn zeta.
    fold out. rewrite Ho, Hs. cbn [Z.eqb Pos.eqb]. rewrite Hb. reflexivity.
Qed.

(** X3: The guard lets negative numbers through: on a 200 response with a
    negative corpNum the identifier carries a minus sign followed by at
    least six digits. *)
Theorem get_next_corp_num_negative (bt : string) (s : St) (n : Z) :
  allocated svc (fst (requests_post svc (allocator_url svc bt) (fst s))) n ->
  n < 0 ->
  exists p,
    fst (get_next_corp_num svc (JStr bt) s) = Ok (Some (bt ++ "-" ++ p))
    /\ (6 <= String.length p)%nat
    /\ Py.all_digits p = true
    /\ Py.value p = - n.
Proof.
  intros (resp & j & v & Ho & Hs & Hb & Hv & Hn) Hneg.
  rewrite get_next_corp_num_run_any. cbn zeta. cbn [py_str].
  unfold allocator_url in Ho. rewrite Ho, Hs, Hb. cbn [rbind Z.eqb Pos.eqb].
  rewrite Hv. cbn [rbind]. rewrite Hn.
  replace (negb (n =? 0) && (n <=? 9999999)) with true
    by (symmetry; apply andb_true_iff; split;
        [apply negb_true_iff, Z.eqb_neq | apply Z.leb_le]; lia).
  unfold Py.format_07d.
  destruct (Z.ltb_spec n 0) as [_|?]; [|lia].
  exists (Py.zfill 6 (Py.digits (- n))). cbn [fst]. split; [reflexivity|].
  destruct (digits_spec (- n)) as (Ha & Hval & _); [lia|].
  unfold Py.zfill.
  destruct (zeros_spec (6 - String.length (Py.digits (- n)))) as (Zl & Za & Zv).
  rewrite length_app, Zl, all_digits_app, Za, Ha, Zv, Hval.
  repeat split; auto. lia.
Qed.

End AllocatorEdges.

Lemma get_next_corp_num_propagates_witness :
  fst (get_next_corp_num
         (Demo.services (Demo.reply 200 (JObj [("corpnum", JNum 42)]))
                        (Demo.reply 200 (JObj [])) (Ok None) (Ok 201)
                        (Ok 200) (Ok None))
         (JStr "BC") Demo.start)
  = Raise (KeyError "corpNum").
Proof.
  apply (proj2 (get_next_corp_num_propagates
                  (Demo.services (Demo.reply 200 (JObj [("corpnum", JNum 42)]))
                                 (Demo.reply 200 (JObj [])) (Ok None) (Ok 201)
                                 (Ok 200) (Ok None))
                  (JStr "BC") Demo.start)
               (mkResponse 200 (Ok (JObj [("corpnum", JNum 42)]))));
    reflexivity.
Defined.

Lemma get_next_corp_num_negative_witness :
  exists p,
    fst (get_next_corp_num (Demo.happy (-5)) (JStr "BC") Demo.start)
    = Ok (Some ("BC" ++ "-" ++ p))
    /\ (6 <= String.length p)%nat
    /\ Py.all_digits p = true
    /\ Py.value p = - (-5).
Proof.
  apply (get_next_corp_num_negative (Demo.happy (-5)) "BC" Demo.start (-5)).
  - apply allocated_happy.
  - lia.
Defined.

(** ** The aggregate builder, with a name supplied *)

Section BuilderEdges.
Context {Office PartyRole ShareClass Alias : Type}.
Local Abbreviation Biz := (Business Office PartyRole ShareClass Alias).

(** X4: With all five arguments truthy and a legalName key in business_info, a
    truthy value is kept as the legal name whatever its type, and a falsy one
    (null, the empty string) is replaced by the numbered name; the
    collections of the business are left as they were. *)
Theorem update_business_info_supplied_name (corp : string) (b : Biz)
        (fields : list (string * json)) (filing name : json) (rec : Filing) :
  corp <> "" -> Py.truthy filing = true ->
  Py.lookup "legalName" fields = Some name ->
  exists b',
    update_business_info (Some corp) (Some b) (JObj fields) filing (Some rec)
    = Ok (Some b')
    /\ legal_name b'
       = (if Py.truthy name then name
          else JStr (substring 2 (String.length corp - 2) corp ++ " B.C. LTD."))
    /\ offices b' = offices b /\ party_roles b' = party_roles b
    /\ share_classes b' = share_classes b /\ aliases b' = aliases b.
Proof.
  intros Hc Ht Hl. unfold update_business_info.
  apply String.eqb_neq in Hc. rewrite Hc, Ht.
  destruct fields as [|kv fields]; [discriminate Hl|].
  cbn [Py.truthy negb andb Py.get]. rewrite Hl. cbn [rbind].
  rewrite <- drop2_substring.
  destruct (Py.lookup "legalType" (kv :: fields));
    cbn [rbind]; eexists; repeat split; reflexivity.
Qed.

End BuilderEdges.

Lemma update_business_info_supplied_name_witness :
  exists b' : Demo.Biz,
    update_business_info (Some "BC1234567") (Some Demo.some_business)
                         (JObj [("legalType", JStr "BC");
                                ("legalName", JStr "")])
                         Demo.full_filing (Some Demo.full_record)
    = Ok (Some b')
    /\ legal_name b'
       = (if Py.truthy (JStr "") then JStr ""
          else JStr (substring 2 (String.length "BC1234567" - 2) "BC1234567"
                     ++ " B.C. LTD."))
    /\ offices b' = offices Demo.some_business
    /\ party_roles b' = party_roles Demo.some_business
    /\ share_classes b' = share_classes Demo.some_business
    /\ aliases b' = aliases Demo.some_business.
Proof.
  apply update_business_info_supplied_name.
  - discriminate.
  - reflexivity.
  - reflexivity.
Defined.

(** ** The affiliation reconciler, path by path *)

Ltac flatten_trace :=
  repeat rewrite <- app_assoc; cbn [app].

Section ReconcilerPaths.
Context {W : Type} (svc : Services W).
Context {Office PartyRole ShareClass Alias : Type}.
Local Abbreviation Biz := (Business Office PartyRole ShareClass Alias).

(** X5: When the primary affiliation is created, the reconciler deletes the
    affiliation of the bootstrap identifier and recreates it under the type
    'TMP' naming the new business, in this order; it records a monitoring
    event exactly when the recreation is not in {200, 201} or the deletion is
    not 200, and undoes nothing in that case. *)
Theorem update_affiliation_flip (business : Biz) (filing : Filing) (s : St)
        (b : Bootstrap) (w1 w2 w3 w4 : W) (rv old new : Z) :
  let ident := json_of_str (identifier business) in
  find_by_identifier svc (temp_reg filing) (fst s) = (Ok (Some b), w1) ->
  create_affiliation svc (bs_account b) ident (legal_name business)
                     (legal_type business) w1 = (Ok rv, w2) ->
  in_success rv = true ->
  delete_affiliation svc (bs_account b) (bs_identifier b) w2 = (Ok old, w3) ->
  create_affiliation svc (bs_account b) (bs_identifier b) ident (JStr "TMP") w3
  = (Ok new, w4) ->
  update_affiliation svc business filing s
  = (Ok tt,
     (w4,
      (snd s
       ++ [EvFindBootstrap (temp_reg filing);
           EvCreateAffiliation (bs_account b) ident (legal_name business)
                               (legal_type business);
           EvDeleteAffiliation (bs_account b) (bs_identifier b);
           EvCreateAffiliation (bs_account b) (bs_identifier b) ident
                               (JStr "TMP")]
       ++ (if in_success new && (old =? HTTP_OK) then []
           else [EvSentry (AffiliationError (filing_id filing)
                                            (QueueException ""))]))%list)).
Proof.
  intros ident Hf Hc Hrv Hd Hn.
  unfold update_affiliation, attr. unfold_monad. cbn.
  rewrite Hf. cbn. fold ident. rewrite Hc. cbn. rewrite Hrv. cbn.
  rewrite Hd. cbn. rewrite Hn. cbn.
  destruct (in_success new && (old =? HTTP_OK)); cbn; flatten_trace;
    reflexivity.
Qed.

(** X6: No bootstrap row, no call to the accounts service: when the lookup finds
    nothing or raises, the reconciler records one monitoring event and
    returns. *)
Theorem update_affiliation_no_bootstrap (business : Biz) (filing : Filing)
        (s : St) :
  (forall w1,
      find_by_identifier svc (temp_reg filing) (fst s) = (Ok None, w1) ->
      update_affiliation svc business filing s
      = (Ok tt,
         (w1, (snd s ++ [EvFindBootstrap (temp_reg filing);
                         EvSentry (AffiliationError (filing_id filing)
                                                    AttributeError)])%list)))
  /\ (forall e w1,
         find_by_identifier svc (temp_reg filing) (fst s) = (Raise e, w1) ->
         update_affiliation svc business filing s
         = (Ok tt,
            (w1, (snd s ++ [EvFindBootstrap (temp_reg filing);
                            EvSentry (AffiliationError (filing_id filing)
                                                       e)])%list))).
Proof.
  split; intros; unfold update_affiliation, attr; unfold_monad; cbn;
    rewrite H; cbn; flatten_trace; reflexivity.
Qed.

(** X7: On every input the reconciler issues at most three calls to the accounts
    service, at most one of them a deletion, and records at most two
    monitoring events. *)
Theorem update_affiliation_bounded (business : Biz) (filing : Filing)
        (s : St) :
  exists new,
    snd (snd (update_affiliation svc business filing s)) = (snd s ++ new)%list
    /\ (count is_outbound new <= 3)%nat
    /\ (count is_delete new <= 1)%nat
    /\ (count is_sentry new <= 2)%nat.
Proof.
  unfold update_affiliation, attr. unfold_monad. cbn.
  repeat (case_scrutinee; cbn).
  all: flatten_trace.
  all: eexists; split; [reflexivity|]; cbv [count filter List.length
                                              is_outbound is_delete is_sentry];
    repeat split; lia.
Qed.

End ReconcilerPaths.

Lemma update_affiliation_flip_witness :
  update_affiliation (Demo.accounts 201) Demo.some_business Demo.full_record
                     Demo.start
  = (Ok tt,
     (tt, [EvFindBootstrap (Some "Tb31yQIuBw");
           EvCreateAffiliation (JNum 7) (JStr "BC1234567")
                               (JStr "1234567 B.C. LTD.") (JStr "BC");
           EvDeleteAffiliation (JNum 7) (JStr "Tb31yQIuBw");
           EvCreateAffiliation (JNum 7) (JStr "Tb31yQIuBw") (JStr "BC1234567")
                               (JStr "TMP")])).
Proof.
  apply (update_affiliation_flip (Demo.accounts 201) Demo.some_business
           Demo.full_record Demo.start Demo.bootstrap tt tt tt tt 201 200 201);
    reflexivity.
Defined.

Lemma update_affiliation_no_bootstrap_witness :
  update_affiliation
    (Demo.services (Demo.reply 200 (JObj [])) (Demo.reply 200 (JObj []))
                   (Ok None) (Ok 201) (Ok 200) (Ok (Some "token")))
    Demo.some_business Demo.full_record Demo.start
  = (Ok tt,
     (tt, [EvFindBootstrap (Some "Tb31yQIuBw");
           EvSentry (AffiliationError 15 AttributeError)])).
Proof.
  apply (proj1 (update_affiliation_no_bootstrap
                  (Demo.services (Demo.reply 200 (JObj []))
                                 (Demo.reply 200 (JObj []))
                                 (Ok None) (Ok 201) (Ok 200)
                                 (Ok (Some "token")))
                  Demo.some_business Demo.full_record Demo.start) tt).
  reflexivity.
Defined.

(** ** The name-reservation consumer, path by path *)

Section ConsumerPaths.
Context {W : Type} (svc : Services W).
Context {Office PartyRole ShareClass Alias : Type}.
Local Abbreviation Biz := (Business Office PartyRole ShareClass Alias).

(** The body of the consume request. *)
Local Abbreviation consume_body business :=
  (JObj [("consume", JObj [("corpNum", json_of_str (identifier business))])]).

(** X8: The name service answers 200: the request went to NAMEX_API followed by
    the NR number, with a bearer token and the business identifier as
    corpNum, and the affiliation of the NR is then deleted from the account
    of the bootstrap; the status that deletion returns is not looked at. *)
Theorem consume_nr_consumed (business : Biz) (filing : Filing) (s : St)
        (nr base token : string) (b : Bootstrap) (w1 w2 w3 w4 : W)
        (resp : Response) (d : Z) :
  nr_number (filing_json filing) = Ok (JStr nr) ->
  find_by_identifier svc (temp_reg filing) (fst s) = (Ok (Some b), w1) ->
  NAMEX_API svc = Some base ->
  get_bearer_token svc w1 = (Ok (Some token), w2) ->
  requests_patch svc (base ++ nr) ("Bearer " ++ token) (consume_body business)
                 w2 = (Ok resp, w3) ->
  status_code resp = HTTP_OK ->
  delete_affiliation svc (bs_account b) (JStr nr) w3 = (Ok d, w4) ->
  consume_nr svc business filing s
  = (Ok tt,
     (w4, (snd s
           ++ [EvFindBootstrap (temp_reg filing);
               EvGetBearerToken;
               EvPatch (base ++ nr) ("Bearer " ++ token)
                       (consume_body business);
               EvDeleteAffiliation (bs_account b) (JStr nr)])%list)).
Proof.
  intros Hnr Hf Hbase Ht Hp Hs Hd.
  unfold consume_nr, consume_nr_body, join2, bearer, attr. unfold_monad.
  rewrite Hnr. cbn -[append]. rewrite Hf. cbn -[append]. rewrite Ht. cbn -[append]. rewrite Hbase.
  rewrite Hp. cbn -[append]. rewrite Hs. cbn -[append]. rewrite Hd. cbn -[append].
  flatten_trace. reflexivity.
Qed.

(** X9: The name service answers anything but 200: the affiliation of the NR is
    left in place and one monitoring event is recorded. *)
Theorem consume_nr_refused_keeps_affiliation (business : Biz)
        (filing : Filing) (s : St) (nr base token : string)
        (bo : option Bootstrap) (w1 w2 w3 : W) (resp : Response) :
  nr_number (filing_json filing) = Ok (JStr nr) ->
  find_by_identifier svc (temp_reg filing) (fst s) = (Ok bo, w1) ->
  NAMEX_API svc = Some base ->
  get_bearer_token svc w1 = (Ok (Some token), w2) ->
  requests_patch svc (base ++ nr) ("Bearer " ++ token) (consume_body business)
                 w2 = (Ok resp, w3) ->
  status_code resp <> HTTP_OK ->
  consume_nr svc business filing s
  = (Ok tt,
     (w3, (snd s
           ++ [EvFindBootstrap (temp_reg filing);
               EvGetBearerToken;
               EvPatch (base ++ nr) ("Bearer " ++ token)
                       (consume_body business);
               EvSentry (ConsumeNRError (filing_id filing))])%list)).
Proof.
  intros Hnr Hf Hbase Ht Hp Hs.
  unfold consume_nr, consume_nr_body, join2, bearer, attr. unfold_monad.
  rewrite Hnr. cbn -[append]. rewrite Hf. cbn -[append]. rewrite Ht. cbn -[append]. rewrite Hbase.
  rewrite Hp. cbn -[append]. apply Z.eqb_neq in Hs. rewrite Hs. cbn -[append].
  flatten_trace. reflexivity.
Qed.

(** X10: No request is sent to the name service when its URL is not configured,
    when the NR number is not a string or when no token was obtained: the
    consumer stops after asking for the token and records one monitoring
    event. *)
Theorem consume_nr_no_request (business : Biz) (filing : Filing) (s : St)
        (nr_num : json) (bo : option Bootstrap) (token : option string)
        (w1 w2 : W) :
  nr_number (filing_json filing) = Ok nr_num ->
  find_by_identifier svc (temp_reg filing) (fst s) = (Ok bo, w1) ->
  get_bearer_token svc w1 = (Ok token, w2) ->
  NAMEX_API svc = None \/ (forall nr, nr_num <> JStr nr) \/ token = None ->
  consume_nr svc business filing s
  = (Ok tt,
     (w2, (snd s
           ++ [EvFindBootstrap (temp_reg filing);
               EvGetBearerToken;
               EvSentry (ConsumeNRError (filing_id filing))])%list)).
Proof.
  intros Hnr Hf Ht Hbad.
  unfold consume_nr, consume_nr_body, join2, bearer, attr. unfold_monad.
  rewrite Hnr. cbn -[append]. rewrite Hf. cbn -[append]. rewrite Ht. cbn -[append].
  destruct (NAMEX_API svc) as [base|]; cbn -[append].
  - destruct nr_num as [| | |nr| |]; cbn -[append]; flatten_trace; try reflexivity.
    destruct token as [t|]; cbn -[append]; flatten_trace; [|reflexivity].
    exfalso. destruct Hbad as [H|[H|H]]; try discriminate H.
    apply (H nr). reflexivity.
  - flatten_trace. reflexivity.
Qed.

(** X11: The bootstrap row is needed only after the consume request: when the
    lookup found no row and the name service answers 200, the NR has been
    consumed, its affiliation is not deleted, and one monitoring event is
    recorded. *)
Theorem consume_nr_without_bootstrap (business : Biz) (filing : Filing)
        (s : St) (nr base token : string) (w1 w2 w3 : W) (resp : Response) :
  nr_number (filing_json filing) = Ok (JStr nr) ->
  find_by_identifier svc (temp_reg filing) (fst s) = (Ok None, w1) ->
  NAMEX_API svc = Some base ->
  get_bearer_token svc w1 = (Ok (Some token), w2) ->
  requests_patch svc (base ++ nr) ("Bearer " ++ token) (consume_body business)
                 w2 = (Ok resp, w3) ->
  status_code resp = HTTP_OK ->
  consume_nr svc business filing s
  = (Ok tt,
     (w3, (snd s
           ++ [EvFindBootstrap (temp_reg filing);
               EvGetBearerToken;
               EvPatch (base ++ nr) ("Bearer " ++ token)
                       (consume_body business);
               EvSentry (ConsumeNRError (filing_id filing))])%list)).
Proof.
  intros Hnr Hf Hbase Ht Hp Hs.
  unfold consume_nr, consume_nr_body, join2, bearer, attr. unfold_monad.
  rewrite Hnr. cbn -[append]. rewrite Hf. cbn -[append]. rewrite Ht. cbn -[append]. rewrite Hbase.
  rewrite Hp. cbn -[append]. rewrite Hs. cbn -[append].
  flatten_trace. reflexivity.
Qed.

(** X12: On every input the consumer issues at most three outbound calls (token,
    consume request, deletion), at most one consume request, and records at
    most one monitoring event. *)
Theorem consume_nr_bounded (business : Biz) (filing : Filing) (s : St) :
  exists new,
    snd (snd (consume_nr svc business filing s)) = (snd s ++ new)%list
    /\ (count is_outbound new <= 3)%nat
    /\ (count is_delete new <= 1)%nat
    /\ (count is_sentry new <= 1)%nat.
Proof.
  unfold consume_nr, consume_nr_body, join2, bearer, attr. unfold_monad.
  destruct (nr_number (filing_json filing)) as [nr_num|e]; cbn -[append].
  - repeat (case_scrutinee; cbn -[append]).
    all: flatten_trace.
    all: eexists; split; [reflexivity|];
      cbv [count filter List.length is_outbound is_delete is_sentry];
      repeat split; lia.
  - exists (monitored filing e). unfold monitored.
    destruct (is_KeyError e); cbn -[append].
    + rewrite app_nil_r. repeat split; cbv; lia.
    + repeat split; cbv; lia.
Qed.

End ConsumerPaths.

Lemma consume_nr_consumed_witness :
  consume_nr (Demo.namex 200) Demo.some_business Scenario.nr_record Demo.start
  = (Ok tt,
     (tt, [EvFindBootstrap (Some "Tb31yQIuBw");
           EvGetBearerToken;
           EvPatch ("https://namex.example/api/v1/requests/" ++ "NR 1234567")
                   ("Bearer " ++ "token")
                   (JObj [("consume", JObj [("corpNum", JStr "BC1234567")])]);
           EvDeleteAffiliation (JNum 7) (JStr "NR 1234567")])).
Proof.
  apply (consume_nr_consumed (Demo.namex 200) Demo.some_business
           Scenario.nr_record Demo.start "NR 1234567"
           "https://namex.example/api/v1/requests/" "token" Demo.bootstrap
           tt tt tt tt (mkResponse 200 (Ok (JObj []))) 200);
    reflexivity.
Defined.

Lemma consume_nr_refused_keeps_affiliation_witness :
  consume_nr (Demo.namex 500) Demo.some_business Scenario.nr_record Demo.start
  = (Ok tt,
     (tt, [EvFindBootstrap (Some "Tb31yQIuBw");
           EvGetBearerToken;
           EvPatch ("https://namex.example/api/v1/requests/" ++ "NR 1234567")
                   ("Bearer " ++ "token")
                   (JObj [("consume", JObj [("corpNum", JStr "BC1234567")])]);
           EvSentry (ConsumeNRError 15)])).
Proof.
  apply (consume_nr_refused_keeps_affiliation (Demo.namex 500)
           Demo.some_business Scenario.nr_record Demo.start "NR 1234567"
           "https://namex.example/api/v1/requests/" "token"
           (Some Demo.bootstrap) tt tt tt (mkResponse 500 (Ok (JObj []))));
    try reflexivity.
  discriminate.
Defined.

Lemma consume_nr_no_request_witness :
  consume_nr Scenario.tokenless Demo.some_business Scenario.nr_record
             Demo.start
  = (Ok tt,
     (tt, [EvFindBootstrap (Some "Tb31yQIuBw");
           EvGetBearerToken;
           EvSentry (ConsumeNRError 15)])).
Proof.
  apply (consume_nr_no_request Scenario.tokenless Demo.some_business
           Scenario.nr_record Demo.start (JStr "NR 1234567")
           (Some Demo.bootstrap) None tt tt);
    try reflexivity.
  right. right. reflexivity.
Defined.

Lemma consume_nr_without_bootstrap_witness :
  consume_nr Scenario.orphan Demo.some_business Scenario.nr_record Demo.start
  = (Ok tt,
     (tt, [EvFindBootstrap (Some "Tb31yQIuBw");
           EvGetBearerToken;
           EvPatch ("https://namex.example/api/v1/requests/" ++ "NR 1234567")
                   ("Bearer " ++ "token")
                   (JObj [("consume", JObj [("corpNum", JStr "BC1234567")])]);
           EvSentry (ConsumeNRError 15)])).
Proof.
  apply (consume_nr_without_bootstrap Scenario.orphan Demo.some_business
           Scenario.nr_record Demo.start "NR 1234567"
           "https://namex.example/api/v1/requests/" "token"
           tt tt tt (mkResponse 200 (Ok (JObj []))));
    reflexivity.
Defined.

(** ** The orchestrator: what a run attaches, calls and keeps *)

Section OrchestratorEdges.
Context {W : Type} (svc : Services W).
Context {Office Party PartyRole ShareClass Alias : Type}.
Context (cmp : Components Office Party PartyRole ShareClass Alias).
Local Abbreviation Biz := (Business Office PartyRole ShareClass Alias).

Ltac bind_ok H :=
  repeat match type of H with
         | rbind ?r _ = Ok _ =>
             let E := fresh "E" in
             destruct r eqn:E; cbn [rbind] in H; [|discriminate H]
         | (if ?c then _ else _) = Ok _ =>
             let E := fresh "E" in destruct c eqn:E
         end.

Lemma grows_refl (b : Biz) : grows b b 0 0 0.
Proof. unfold grows, same_info. repeat split; lia. Qed.

Lemma grows_trans (a b c : Biz) (o1 r1 c1 o2 r2 c2 : nat) :
  grows a b o1 r1 c1 -> grows b c o2 r2 c2 ->
  grows a c (o1 + o2) (r1 + r2) (c1 + c2).
Proof.
  unfold grows, same_info.
  intros ((A1 & A2 & A3 & A4 & A5) & Ao & Ar & Ac)
         ((B1 & B2 & B3 & B4 & B5) & Bo & Br & Bc).
  repeat split; try congruence; lia.
Qed.

Lemma fold_res_grows {A} (f : Biz -> A -> res Biz) (wo wr wc : A -> nat) :
  (forall b x b', f b x = Ok b' -> grows b b' (wo x) (wr x) (wc x)) ->
  forall l b b',
    fold_res f l b = Ok b' ->
    grows b b' (list_sum (map wo l)) (list_sum (map wr l))
          (list_sum (map wc l)).
Proof.
  intros Hf l. induction l as [|x l IH]; intros b b'; cbn [fold_res].
  - intros [= ->]. apply grows_refl.
  - destruct (f b x) as [b1|e] eqn:E; cbn [rbind]; [|discriminate].
    intros H. cbn [map list_sum]. eapply grows_trans; eauto.
Qed.

Lemma list_sum_ones {A} (l : list A) :
  list_sum (map (fun _ => 1%nat) l) = List.length l.
Proof. induction l; cbn; auto. Qed.

Lemma list_sum_zeros {A} (l : list A) :
  list_sum (map (fun _ => 0%nat) l) = 0%nat.
Proof. induction l; cbn; auto. Qed.

Lemma attach_office_grows b kv b' :
  attach_office cmp b kv = Ok b' -> grows b b' 1 0 0.
Proof.
  unfold attach_office. intros H. bind_ok H. injection H as <-.
  unfold grows, same_info. cbn. rewrite List.length_app. cbn.
  repeat split; lia.
Qed.

Lemma attach_role_grows party b role b' :
  attach_role cmp party b role = Ok b' -> grows b b' 0 1 0.
Proof.
  unfold attach_role. intros H. bind_ok H. injection H as <-.
  unfold grows, same_info. cbn. rewrite List.length_app. cbn.
  repeat split; lia.
Qed.

Lemma attach_share_class_grows b info b' :
  attach_share_class cmp b info = Ok b' -> grows b b' 0 0 1.
Proof.
  unfold attach_share_class. intros H. bind_ok H. injection H as <-.
  unfold grows, same_info. cbn. rewrite List.length_app. cbn.
  repeat split; lia.
Qed.

Lemma attach_party_grows b info b' :
  attach_party cmp b info = Ok b' ->
  grows b b' 0 (role_count info) 0
  /\ exists roles, roles_of info = Ok roles.
Proof.
  unfold attach_party, role_count, roles_of. intros H.
  destruct (create_party cmp (business_id b) info) as [party|e] eqn:Ep;
    cbn [rbind] in H; [|discriminate H].
  destruct (Py.get info "roles") as [r|e] eqn:Er;
    cbn [rbind] in H; [|discriminate H].
  destruct (Py.iter r) as [roles|e] eqn:Ei;
    cbn [rbind] in H; [|discriminate H].
  cbn [rbind]. rewrite Ei. split; [|eauto].
  pose proof (fold_res_grows (attach_role cmp party) (fun _ => 0%nat)
                (fun _ => 1%nat) (fun _ => 0%nat)
                (fun b x b' => attach_role_grows party b x b') _ _ _ H) as G.
  now rewrite list_sum_ones, !list_sum_zeros in G.
Qed.

Lemma attach_offices_grows b ia b' :
  attach_offices cmp b ia = Ok b' -> grows b b' (office_count ia) 0 0.
Proof.
  unfold attach_offices, office_count. intros H. bind_ok H.
  cbn [rbind]. rewrite E0.
  pose proof (fold_res_grows (attach_office cmp) (fun _ => 1%nat)
                (fun _ => 0%nat) (fun _ => 0%nat)
                attach_office_grows _ _ _ H) as G.
  now rewrite list_sum_ones, !list_sum_zeros in G.
Qed.

Lemma fold_parties_grows l :
  forall b b',
    fold_res (attach_party cmp) l b = Ok b' ->
    grows b b' 0 (list_sum (map role_count l)) 0
    /\ Forall (fun p => exists roles, roles_of p = Ok roles) l.
Proof.
  induction l as [|x l IH]; intros b b'; cbn [fold_res].
  - intros [= ->]. split; [apply grows_refl | constructor].
  - destruct (attach_party cmp b x) as [b1|e] eqn:E; cbn [rbind];
      [|discriminate].
    intros H. destruct (attach_party_grows _ _ _ E) as [G1 R1].
    destruct (IH _ _ H) as [G2 R2]. split; [|constructor; assumption].
    cbn [map list_sum]. apply (grows_trans _ _ _ _ _ _ _ _ _ G1 G2).
Qed.

Lemma attach_parties_grows b ia b' :
  attach_parties cmp b ia = Ok b' ->
  grows b b' 0 (party_role_count ia) 0
  /\ exists parties,
      parties_of ia = Ok parties
      /\ Forall (fun p => exists roles, roles_of p = Ok roles) parties.
Proof.
  unfold attach_parties, party_role_count, parties_of. intros H. bind_ok H.
  - bind_ok H. cbn [rbind]. rewrite E0, E1.
    destruct (fold_parties_grows _ _ _ H) as [G R]. eauto.
  - injection H as <-. cbn [rbind]. rewrite E0. cbn [map list_sum].
    split; [apply grows_refl | eauto].
Qed.

Lemma attach_share_classes_grows b ia b' :
  attach_share_classes cmp b ia = Ok b' ->
  grows b b' 0 0 (share_class_count ia).
Proof.
  unfold attach_share_classes, share_class_count. intros H. bind_ok H.
  - bind_ok H. cbn [rbind]. rewrite E0, E1.
    pose proof (fold_res_grows (attach_share_class cmp) (fun _ => 0%nat)
                  (fun _ => 0%nat) (fun _ => 1%nat)
                  attach_share_class_grows _ _ _ H) as G.
    now rewrite list_sum_ones, !list_sum_zeros in G.
  - injection H as <-. cbn [rbind]. rewrite E0. apply grows_refl.
Qed.

Lemma attach_aliases_grows b ia b' :
  attach_aliases cmp b ia = Ok b' -> grows b b' 0 0 0.
Proof.
  unfold attach_aliases. intros H. bind_ok H.
  - bind_ok H. injection H as <-.
    unfold grows, same_info. cbn. repeat split; lia.
  - injection H as <-. apply grows_refl.
Qed.

Lemma attach_children_grows b ia b' :
  attach_children cmp b ia = Ok b' ->
  grows b b' (office_count ia) (party_role_count ia) (share_class_count ia)
  /\ exists parties,
      parties_of ia = Ok parties
      /\ Forall (fun p => exists roles, roles_of p = Ok roles) parties.
Proof.
  unfold attach_children. intros H. bind_ok H.
  pose proof (attach_offices_grows _ _ _ E) as G1.
  destruct (attach_parties_grows _ _ _ E0) as [G2 R].
  pose proof (attach_share_classes_grows _ _ _ E1) as G3.
  pose proof (attach_aliases_grows _ _ _ H) as G4.
  split; [|exact R].
  pose proof (grows_trans _ _ _ _ _ _ _ _ _
                (grows_trans _ _ _ _ _ _ _ _ _
                   (grows_trans _ _ _ _ _ _ _ _ _ G1 G2) G3) G4) as G.
  replace (office_count ia + 0 + 0 + 0)%nat with (office_count ia) in G by lia.
  replace (0 + party_role_count ia + 0 + 0)%nat
    with (party_role_count ia) in G by lia.
  replace (0 + 0 + share_class_count ia + 0)%nat
    with (share_class_count ia) in G by lia.
  exact G.
Qed.

Lemma update_business_info_shape (corp : string) (b b0 : Biz)
      (info ia : json) (rec : Filing) :
  update_business_info (Some corp) (Some b) info ia (Some rec) = Ok (Some b0) ->
  exists supplied lt,
    Py.get info "legalName" = Ok supplied
    /\ Py.get info "legalType" = Ok lt
    /\ b0 = set_info b (Some corp)
                     (if Py.truthy supplied then supplied
                      else JStr (Py.drop2 corp ++ " B.C. LTD."))
                     lt (effective_date rec).
Proof.
  unfold update_business_info. intros H.
  destruct (negb (String.eqb corp "") && Py.truthy info && Py.truthy ia);
    [|discriminate H].
  destruct (Py.get info "legalName") as [supplied|e]; cbn [rbind] in H;
    [|discriminate H].
  destruct (Py.get info "legalType") as [lt|e]; cbn [rbind] in H;
    [|discriminate H].
  injection H as <-. eauto.
Qed.

(** X13: A successful run attaches one office per entry of offices, one party role
    per role of each party and one share class per entry of shareClasses, to
    a Business that has no row id yet. *)
Theorem process_children_counts (business : option Biz) (filing : json)
        (rec rec' : Filing) (s s' : St) (b : Biz) :
  process svc cmp business filing rec s = (Ok (b, rec'), s') ->
  exists ia,
    Py.get filing "incorporationApplication" = Ok ia
    /\ List.length (offices b) = office_count ia
    /\ List.length (party_roles b) = party_role_count ia
    /\ List.length (share_classes b) = share_class_count ia
    /\ business_id b = None.
Proof.
  intros H.
  destruct (process_success_inv _ _ _ _ _ _ _ _ _ H)
    as (ia & info & lt & corp & b0 & b1 & _ & Hia & _ & _ & _ & _
        & Hb0 & Hb1 & Hfin).
  destruct (update_business_info_shape _ _ _ _ _ _ Hb0)
    as (supplied & lt' & _ & _ & ->).
  destruct (attach_children_grows _ _ _ Hb1)
    as [((Hid & _) & Ho & Hr & Hc) _].
  destruct (finalize_spec _ _ _ _ Hfin) as (-> & _).
  exists ia. cbn in *. repeat split; auto.
Qed.

(** X14: A successful run read an iterable roles value from every party: a party
    without the roles key makes [process] fail. *)
Theorem process_parties_have_roles (business : option Biz) (filing : json)
        (rec rec' : Filing) (s s' : St) (b : Biz) :
  process svc cmp business filing rec s = (Ok (b, rec'), s') ->
  exists ia parties,
    Py.get filing "incorporationApplication" = Ok ia
    /\ parties_of ia = Ok parties
    /\ Forall (fun p => exists roles, roles_of p = Ok roles) parties.
Proof.
  intros H.
  destruct (process_success_inv _ _ _ _ _ _ _ _ _ H)
    as (ia & info & lt & corp & b0 & b1 & _ & Hia & _ & _ & _ & _
        & _ & Hb1 & _).
  destruct (attach_children_grows _ _ _ Hb1) as [_ (parties & Hp & Hall)].
  eauto.
Qed.

(** X15: Without an identifier there is no Business: when the guards pass and the
    allocator gives nothing, [process] raises the [QueueException] that names
    the filing, in the state the allocator call left. *)
Theorem process_without_number (filing ia info lt : json) (rec : Filing)
        (s s' : St) :
  Py.get filing "incorporationApplication" = Ok ia ->
  Py.truthy ia = true ->
  Py.get ia "nameRequest" = Ok info ->
  Py.getitem info "legalType" = Ok lt ->
  get_next_corp_num svc lt s = (Ok None, s') ->
  process svc cmp None filing rec s
  = (Raise (QueueException
              ("incorporationApplication " ++ Py.str_int (filing_id rec)
               ++ " unable to get a business registration number.")), s').
Proof.
  intros Hia Ht Hinfo Hlt Hcorp. unfold process. unfold_monad.
  rewrite Hia, Ht. cbn [negb]. rewrite Hinfo, Hlt, Hcorp. reflexivity.
Qed.

Lemma process_state (business : option Biz) (filing : json) (rec : Filing)
      (s : St) :
  snd (process svc cmp business filing rec s) = s
  \/ exists lt, snd (process svc cmp business filing rec s)
                = snd (get_next_corp_num svc lt s).
Proof.
  unfold process. unfold_monad.
  destruct (Py.get filing "incorporationApplication") as [ia|e];
    [|left; reflexivity].
  destruct (negb (Py.truthy ia)); [left; reflexivity|].
  destruct business; [left; reflexivity|].
  destruct (Py.get ia "nameRequest") as [info|e]; [|left; reflexivity].
  destruct (Py.getitem info "legalType") as [lt|e]; [|left; reflexivity].
  right. exists lt.
  destruct (get_next_corp_num svc lt s) as [[corp|e] s1]; [|reflexivity].
  destruct (negb (Py.truthy_str corp)); [reflexivity|].
  destruct (update_business_info _ _ _ _ _) as [[b0|]|e]; try reflexivity.
  destruct (attach_children cmp b0 ia) as [b1|e]; [|reflexivity].
  destruct (finalize b1 rec) as [[b2 rec2]|e]; reflexivity.
Qed.

(** X16: On every input [process] issues at most one outbound call, the POST to
    the allocator: it never calls the accounts or the name service and
    records no monitoring event. *)
Theorem process_calls_bounded (business : option Biz) (filing : json)
        (rec : Filing) (s : St) :
  exists new,
    snd (snd (process svc cmp business filing rec s)) = (snd s ++ new)%list
    /\ (count is_outbound new <= 1)%nat
    /\ count is_delete new = 0%nat
    /\ count is_sentry new = 0%nat
    /\ forall e, In e new -> exists text, e = EvPost text \/ e = EvLogError text.
Proof.
  destruct (process_state business filing rec s) as [->|[lt ->]].
  - exists []. rewrite app_nil_r.
    refine (conj eq_refl (conj _ (conj _ (conj _ _))));
      solve [cbv; lia | intros e []].
  - destruct (get_next_corp_num_single_post svc lt s) as [_ ->].
    eexists. split; [reflexivity|].
    assert (Hin : forall (l : list event) e,
               In e l -> Forall (fun e => exists text,
                                     e = EvPost text \/ e = EvLogError text) l ->
               exists text, e = EvPost text \/ e = EvLogError text).
    { intros l e Hi Hall. rewrite Forall_forall in Hall. auto. }
    destruct (fst (requests_post svc _ (fst s))) as [resp|e];
      [|destruct e];
      (refine (conj _ (conj _ (conj _ _))); try (cbv; lia));
      intros e' Hi; apply (Hin _ _ Hi); repeat constructor; eauto.
Qed.

Lemma get_next_corp_num_some (lt : json) (s s' : St) (corp : string) :
  get_next_corp_num svc lt s = (Ok (Some corp), s') ->
  exists n, corp = py_str svc lt ++ Py.format_07d n
            /\ n <> 0 /\ n <= 9999999.
Proof.
  rewrite get_next_corp_num_run_any. cbn zeta.
  destruct (fst (requests_post svc _ (fst s))) as [resp|e].
  - destruct (status_code resp =? 200); [|discriminate].
    destruct (j <~ body resp;; v <~ Py.getitem j "corpNum";; py_int svc v)
      as [n|e]; [|discriminate].
    destruct (negb (n =? 0) && (n <=? 9999999)) eqn:G; [|discriminate].
    intros [= <- _]. exists n. split; [reflexivity|].
    apply andb_true_iff in G. destruct G as [G1 G2].
    apply negb_true_iff, Z.eqb_neq in G1. apply Z.leb_le in G2. auto.
  - destruct e; discriminate.
Qed.

(** X17: The two steps compose: for a two-letter type code and a name request
    without legalName, a successful run names the Business by the number
    part of its identifier, followed by ' B.C. LTD.'. *)
Theorem process_numbered_name (business : option Biz) (filing ia : json)
        (nr_fields : list (string * json)) (c1 c2 : ascii)
        (rec rec' : Filing) (s s' : St) (b : Biz) :
  process svc cmp business filing rec s = (Ok (b, rec'), s') ->
  Py.get filing "incorporationApplication" = Ok ia ->
  Py.get ia "nameRequest" = Ok (JObj nr_fields) ->
  Py.lookup "legalType" nr_fields = Some (JStr (String c1 (String c2 ""))) ->
  Py.lookup "legalName" nr_fields = None ->
  exists n,
    n <> 0 /\ n <= 9999999
    /\ identifier b = Some (String c1 (String c2 (Py.format_07d n)))
    /\ legal_name b = JStr (Py.format_07d n ++ " B.C. LTD.")
    /\ legal_type b = JStr (String c1 (String c2 "")).
Proof.
  intros H Hia Hnr Hlt Hln.
  destruct (process_success_inv _ _ _ _ _ _ _ _ _ H)
    as (ia' & info & lt & corp & b0 & b1 & _ & Hia' & _ & Hinfo & Hlt'
        & Hcorp & Hb0 & Hb1 & Hfin).
  rewrite Hia in Hia'. injection Hia' as <-.
  rewrite Hnr in Hinfo. injection Hinfo as <-.
  cbn [Py.getitem] in Hlt'. rewrite Hlt in Hlt'. injection Hlt' as <-.
  destruct (get_next_corp_num_some _ _ _ _ Hcorp) as (n & -> & Hn0 & Hn).
  destruct (update_business_info_shape _ _ _ _ _ _ Hb0)
    as (supplied & lt' & Hs & Hl & ->).
  cbn [Py.get] in Hs, Hl. rewrite Hln in Hs. rewrite Hlt in Hl.
  injection Hs as <-. injection Hl as <-.
  destruct (attach_children_grows _ _ _ Hb1)
    as [((_ & Hi & Hname & Htype & _) & _) _].
  destruct (finalize_spec _ _ _ _ Hfin) as (-> & _).
  exists n. cbn in Hi, Hname, Htype.
  repeat split; assumption.
Qed.

(** A store at [k1][k2][k3] leaves every other place of the tree alone. *)
Lemma setitem3_frame (root root' : json) (k1 k2 k3 : string) (v : json) :
  setitem3 root k1 k2 k3 v = Ok root' ->
  (forall k, k <> k1 -> Py.getitem root' k = Py.getitem root k)
  /\ (forall k, k <> k2 -> getitem2 root' k1 k = getitem2 root k1 k)
  /\ (forall k, k <> k3 -> getitem3 root' k1 k2 k = getitem3 root k1 k2 k).
Proof.
  intros H. split; [|split].
  - revert H. unfold setitem3.
    destruct (Py.getitem root k1) as [a|e] eqn:Ha; cbn [rbind]; [|discriminate].
    destruct (Py.getitem a k2) as [b|e] eqn:Hb; cbn [rbind]; [|discriminate].
    destruct (getitem_ok _ _ _ Ha) as (top & -> & Htop).
    destruct (getitem_ok _ _ _ Hb) as (mid & -> & Hmid).
    destruct b as [| | | | |low]; cbn [Py.setitem rbind]; try discriminate.
    intros [= <-] k Hk. cbn [Py.getitem].
    now rewrite lookup_store_other.
  - revert H. unfold setitem3, getitem2.
    destruct (Py.getitem root k1) as [a|e] eqn:Ha; cbn [rbind]; [|discriminate].
    destruct (Py.getitem a k2) as [b|e] eqn:Hb; cbn [rbind]; [|discriminate].
    destruct (getitem_ok _ _ _ Ha) as (top & -> & Htop).
    destruct (getitem_ok _ _ _ Hb) as (mid & -> & Hmid).
    destruct b as [| | | | |low]; cbn [Py.setitem rbind]; try discriminate.
    intros [= <-] k Hk. cbn [Py.getitem rbind].
    rewrite lookup_store_same. cbn [rbind Py.getitem].
    now rewrite lookup_store_other.
  - apply (setitem3_spec _ _ _ _ _ _ H).
Qed.

(** X18: A successful run changes nothing of the filing record but two entries of
    its stored JSON: every top-level key other than filing, every key of
    filing other than business, and every key of filing.business other than
    identifier and foundingDate reads as before; the id, the bootstrap
    reference and the effective date are kept. *)
Theorem process_preserves_payload (business : option Biz) (filing : json)
        (rec rec' : Filing) (s s' : St) (b : Biz) :
  process svc cmp business filing rec s = (Ok (b, rec'), s') ->
  filing_id rec' = filing_id rec
  /\ temp_reg rec' = temp_reg rec
  /\ effective_date rec' = effective_date rec
  /\ (forall k, k <> "filing" ->
                Py.getitem (filing_json rec') k = Py.getitem (filing_json rec) k)
  /\ (forall k, k <> "business" ->
                getitem2 (filing_json rec') "filing" k
                = getitem2 (filing_json rec) "filing" k)
  /\ (forall k, k <> "identifier" -> k <> "foundingDate" ->
                getitem3 (filing_json rec') "filing" "business" k
                = getitem3 (filing_json rec) "filing" "business" k).
Proof.
  intros H.
  destruct (process_success_inv _ _ _ _ _ _ _ _ _ H)
    as (ia & info & lt & corp & b0 & b1 & _ & _ & _ & _ & _ & _
        & _ & _ & Hfin).
  unfold finalize, Py.deepcopy, isoformat_opt in Hfin.
  destruct (setitem3 (filing_json rec) _ _ _ _) as [j1|e] eqn:E1;
    cbn [rbind] in Hfin; [|discriminate Hfin].
  destruct (founding_date b1) as [d|]; cbn [rbind] in Hfin;
    [|discriminate Hfin].
  destruct (setitem3 j1 _ _ _ _) as [j2|e] eqn:E2;
    cbn [rbind] in Hfin; [|discriminate Hfin].
  injection Hfin as _ <-. cbn [filing_json set_filing_json filing_id temp_reg
                                effective_date].
  destruct (setitem3_frame _ _ _ _ _ _ E1) as (A1 & A2 & A3).
  destruct (setitem3_frame _ _ _ _ _ _ E2) as (B1 & B2 & B3).
  repeat split.
  - intros k Hk. rewrite B1, A1; auto.
  - intros k Hk. rewrite B2, A2; auto.
  - intros k Hi Hf. rewrite B3, A3; auto.
Qed.

End OrchestratorEdges.

Lemma process_children_counts_witness :
  exists ia,
    Py.get Demo.full_filing "incorporationApplication" = Ok ia
    /\ List.length (offices Demo.incorporated_business) = office_count ia
    /\ List.length (party_roles Demo.incorporated_business)
       = party_role_count ia
    /\ List.length (share_classes Demo.incorporated_business)
       = share_class_count ia
    /\ business_id Demo.incorporated_business = None.
Proof.
  apply (process_children_counts (Demo.happy 42) Demo.components None
           Demo.full_filing Demo.full_record Demo.incorporated_record
           Demo.start
           (tt, [EvPost "https://colin.example/api/v1/businesses/BC"])
           Demo.incorporated_business).
  vm_compute. reflexivity.
Defined.

Lemma process_parties_have_roles_witness :
  exists ia parties,
    Py.get Demo.full_filing "incorporationApplication" = Ok ia
    /\ parties_of ia = Ok parties
    /\ Forall (fun p => exists roles, roles_of p = Ok roles) parties.
Proof.
  apply (process_parties_have_roles (Demo.happy 42) Demo.components None
           Demo.full_filing Demo.full_record Demo.incorporated_record
           Demo.start
           (tt, [EvPost "https://colin.example/api/v1/businesses/BC"])
           Demo.incorporated_business).
  vm_compute. reflexivity.
Defined.

Example process_party_without_roles :
  fst (process (Demo.happy 42) Demo.components None
               (Demo.incorporation
                  [("nameRequest", Demo.name_request);
                   ("offices", Demo.office);
                   ("parties",
                    JArr [JObj [("officer",
                                 JObj [("firstName", JStr "Joe")])]]);
                   ("shareClasses", JArr [Demo.share_class])])
               Demo.full_record Demo.start)
  = Raise TypeError.
Proof. vm_compute. reflexivity. Qed.

Lemma process_without_number_witness :
  process Scenario.unreachable Demo.components None Demo.full_filing
          Demo.full_record Demo.start
  = (Raise (QueueException
              ("incorporationApplication " ++ Py.str_int 15
               ++ " unable to get a business registration number.")),
     (tt, [EvPost "https://colin.example/api/v1/businesses/BC";
           EvLogError
             "Failed to connect to https://colin.example/api/v1/businesses"])).
Proof.
  eapply (process_without_number Scenario.unreachable Demo.components
            Demo.full_filing); vm_compute; reflexivity.
Defined.

Lemma process_numbered_name_witness :
  exists n,
    n <> 0 /\ n <= 9999999
    /\ identifier Demo.incorporated_business
       = Some (String "B" (String "C" (Py.format_07d n)))
    /\ legal_name Demo.incorporated_business
       = JStr (Py.format_07d n ++ " B.C. LTD.")
    /\ legal_type Demo.incorporated_business = JStr "BC".
Proof.
  eapply (process_numbered_name (Demo.happy 42) Demo.components None
            Demo.full_filing _ [("legalType", JStr "BC")] "B" "C"
            Demo.full_record Demo.incorporated_record Demo.start
            (tt, [EvPost "https://colin.example/api/v1/businesses/BC"])
            Demo.incorporated_business);
    vm_compute; reflexivity.
Defined.

Lemma process_preserves_payload_witness :
  filing_id Demo.incorporated_record = filing_id Demo.full_record
  /\ temp_reg Demo.incorporated_record = temp_reg Demo.full_record
  /\ effective_date Demo.incorporated_record = effective_date Demo.full_record
  /\ (forall k, k <> "filing" ->
                Py.getitem (filing_json Demo.incorporated_record) k
                = Py.getitem (filing_json Demo.full_record) k)
  /\ (forall k, k <> "business" ->
                getitem2 (filing_json Demo.incorporated_record) "filing" k
                = getitem2 (filing_json Demo.full_record) "filing" k)
  /\ (forall k, k <> "identifier" -> k <> "foundingDate" ->
                getitem3 (filing_json Demo.incorporated_record)
                         "filing" "business" k
                = getitem3 (filing_json Demo.full_record)
                           "filing" "business" k).
Proof.
  apply (process_preserves_payload (Demo.happy 42) Demo.components None
           Demo.full_filing Demo.full_record Demo.incorporated_record
           Demo.start
           (tt, [EvPost "https://colin.example/api/v1/businesses/BC"])
           Demo.incorporated_business).
  vm_compute. reflexivity.
Defined.

(** ** Post-processing *)

Section PostProcessorFacts.
Context {W : Type}.
Context {Office PartyRole ShareClass Alias : Type}.
Local Abbreviation Biz := (Business Office PartyRole ShareClass Alias).
Context (prof : ProfileService W Office PartyRole ShareClass Alias).

Ltac unfold_eff :=
  unfold Eff.bind, Eff.ret, Eff.raise, Eff.lift, Eff.try_except, Eff.emit,
    Eff.call in *.

(** X19: [post_process] never raises a [KeyError], a [TypeError] or an
    [IndexError], and on every input it calls the profile service at most
    once and captures at most one message. *)
Theorem post_process_suppresses (business : Biz) (filing : Filing)
        (s : @Eff.St W post_event) :
  (forall e, fst (post_process prof business filing s) = Raise e ->
             suppressed e = false)
  /\ exists new,
      snd (snd (post_process prof business filing s)) = (snd s ++ new)%list
      /\ (List.length (filter is_profile_update new) <= 1)%nat
      /\ (List.length (filter is_post_sentry new) <= 1)%nat.
Proof.
  unfold post_process. unfold_eff.
  destruct (contact_point prof filing) as [cp|e] eqn:Hcp; cbn.
  - destruct (update_business_profile prof business cp (fst s))
      as [[err|e] w'] eqn:Hu; cbn.
    + split; [discriminate|].
      eexists. rewrite <- app_assoc. split; [reflexivity|]. cbn. lia.
    + destruct (suppressed e) eqn:Hs; cbn.
      * split; [discriminate|].
        eexists. split; [reflexivity|]. cbn. lia.
      * split; [intros e' [= <-]; exact Hs|].
        eexists. split; [reflexivity|]. cbn. lia.
  - destruct (suppressed e) eqn:Hs; cbn.
    + split; [discriminate|].
      exists []. rewrite app_nil_r. cbn. repeat split; lia.
    + split; [intros e' [= <-]; exact Hs|].
      exists []. rewrite app_nil_r. cbn. repeat split; lia.
Qed.

(** X20: A filing without a contact point is skipped in silence: when reading
    filing.incorporationApplication.contactPoint fails on a missing key or
    on a value that cannot be subscripted, nothing is called, nothing is
    captured, and [post_process] returns. *)
Theorem post_process_no_contact (business : Biz) (filing : Filing)
        (s : @Eff.St W post_event) (e : exc) :
  contact_point prof filing = Raise e ->
  suppressed e = true ->
  post_process prof business filing s = (Ok tt, s).
Proof.
  intros Hcp Hs. unfold post_process. unfold_eff.
  rewrite Hcp, Hs. reflexivity.
Qed.

(** X21: Whenever the profile update returns, its result is captured as an
    error-level message, also when the result is [None]: one update call and
    one message, in this order. *)
Theorem post_process_reports (business : Biz) (filing : Filing)
        (s : @Eff.St W post_event) (cp err : json) (w' : W) :
  contact_point prof filing = Ok cp ->
  update_business_profile prof business cp (fst s) = (Ok err, w') ->
  post_process prof business filing s
  = (Ok tt,
     (w', (snd s ++ [PEvUpdateProfile (identifier business) cp;
                     PEvSentry (filing_id filing) err])%list)).
Proof.
  intros Hcp Hu. unfold post_process. unfold_eff.
  rewrite Hcp. cbn. rewrite Hu. cbn. now rewrite <- app_assoc.
Qed.

(** X22: When the profile update raises, no message is captured; the exception
    is swallowed if it is a [KeyError], a [TypeError] or an [IndexError] and
    raised to the caller otherwise. *)
Theorem post_process_update_fails (business : Biz) (filing : Filing)
        (s : @Eff.St W post_event) (cp : json) (e : exc) (w' : W) :
  contact_point prof filing = Ok cp ->
  update_business_profile prof business cp (fst s) = (Raise e, w') ->
  post_process prof business filing s
  = (if suppressed e then Ok tt else Raise e,
     (w', (snd s ++ [PEvUpdateProfile (identifier business) cp])%list)).
Proof.
  intros Hcp Hu. unfold post_process. unfold_eff.
  rewrite Hcp. cbn. rewrite Hu. cbn.
  destruct (suppressed e); reflexivity.
Qed.

End PostProcessorFacts.

Lemma post_process_no_contact_witness :
  post_process (Scenario.profile (Ok JNull)) Demo.some_business
               Demo.full_record Scenario.post_start
  = (Ok tt, Scenario.post_start).
Proof.
  apply (post_process_no_contact (Scenario.profile (Ok JNull))
           Demo.some_business Demo.full_record Scenario.post_start
           (KeyError "contactPoint"));
    reflexivity.
Defined.

Lemma post_process_reports_witness :
  post_process (Scenario.profile (Ok JNull)) Demo.some_business
               Scenario.nr_record Scenario.post_start
  = (Ok tt,
     (tt, [PEvUpdateProfile (Some "BC1234567")
                            (JObj [("email", JStr "no_one@never.get")]);
           PEvSentry 15 JNull])).
Proof.
  apply (post_process_reports (Scenario.profile (Ok JNull))
           Demo.some_business Scenario.nr_record Scenario.post_start
           (JObj [("email", JStr "no_one@never.get")]) JNull tt);
    reflexivity.
Defined.

Lemma post_process_update_fails_witness :
  post_process (Scenario.profile (Raise AttributeError)) Demo.some_business
               Scenario.nr_record Scenario.post_start
  = (Raise AttributeError,
     (tt, [PEvUpdateProfile (Some "BC1234567")
                            (JObj [("email", JStr "no_one@never.get")])])).
Proof.
  apply (post_process_update_fails (Scenario.profile (Raise AttributeError))
           Demo.some_business Scenario.nr_record Scenario.post_start
           (JObj [("email", JStr "no_one@never.get")]) AttributeError tt);
    reflexivity.
Defined.

(** ** The business resource *)

Section BusinessResourceFacts.
Context {W Row : Type} (reg : Registry W Row).

Ltac unfold_eff :=
  unfold Eff.bind, Eff.ret, Eff.raise, Eff.lift, Eff.try_except, Eff.emit,
    Eff.call in *.

(** X23: [GET]: an identifier that starts with 'T' is answered without looking
    the business up; any other identifier costs exactly one lookup, answered
    404 with '<identifier> not found' when there is no such business and with
    the business JSON otherwise. *)
Theorem get_lookup (identifier : string) (s : @Eff.St W api_event) :
  (starts_with_T identifier = true ->
   get reg identifier s
   = (Ok (message "message"
                  (babel reg "No information on temp registrations."),
          HTTP_OK), s))
  /\ (forall w',
         starts_with_T identifier = false ->
         find_business reg identifier (fst s) = (Ok None, w') ->
         get reg identifier s
         = (Ok (message "message" (identifier ++ " not found"),
                HTTP_NOT_FOUND),
            (w', (snd s ++ [AEvFindBusiness identifier])%list)))
  /\ (forall row j w',
         starts_with_T identifier = false ->
         find_business reg identifier (fst s) = (Ok (Some row), w') ->
         business_json reg row = Ok j ->
         get reg identifier s
         = (Ok (JObj [("business", j)], HTTP_OK),
            (w', (snd s ++ [AEvFindBusiness identifier])%list))).
Proof.
  split; [|split].
  - intros Ht. unfold get. rewrite Ht. reflexivity.
  - intros w' Ht Hf. unfold get. rewrite Ht. unfold_eff. rewrite Hf.
    reflexivity.
  - intros row j w' Ht Hf Hj. unfold get. rewrite Ht. unfold_eff.
    rewrite Hf. cbn. rewrite Hj. reflexivity.
Qed.

Lemma getitem_raises (v : json) (k : string) (e : exc) :
  Py.getitem v k = Raise e -> is_TypeError_or_KeyError e = true.
Proof.
  destruct v; cbn; try (intros [= <-]; reflexivity).
  destruct (Py.lookup k fields); [discriminate|].
  intros [= <-]. reflexivity.
Qed.

Lemma header_field_raises (j : json) (k : string) (e : exc) :
  header_field j k = Raise e -> is_TypeError_or_KeyError e = true.
Proof.
  unfold header_field.
  destruct (Py.getitem j "filing") as [f|e1] eqn:E1; cbn [rbind].
  - destruct (Py.getitem f "header") as [h|e2] eqn:E2; cbn [rbind].
    + apply getitem_raises.
    + intros [= <-]. eapply getitem_raises; eassumption.
  - intros [= <-]. eapply getitem_raises; eassumption.
Qed.

Lemma minimal_filing_raises (j : json) (e : exc) :
  minimal_filing reg j = Raise e -> is_TypeError_or_KeyError e = true.
Proof.
  unfold minimal_filing.
  destruct (header_field j "accountId") as [a|e1] eqn:E1; cbn [rbind].
  - destruct (header_field j "name") as [t|e2] eqn:E2; cbn [rbind].
    + destruct (differs_from_ia_name reg t); [|discriminate].
      intros [= <-]. reflexivity.
    + intros [= <-]. eapply header_field_raises; eassumption.
  - intros [= <-]. eapply header_field_raises; eassumption.
Qed.

Lemma minimal_filing_ok (j a : json) :
  header_field j "accountId" = Ok a ->
  header_field j "name" = Ok (JStr (ia_name reg)) ->
  minimal_filing reg j = Ok a.
Proof.
  intros Ha Hn. unfold minimal_filing. rewrite Ha, Hn. cbn.
  now rewrite String.eqb_refl.
Qed.

(** X24: [POST] with a body that is no minimal incorporation filing (no JSON, no
    filing.header.accountId, no filing.header.name, or a name other than
    that of the incorporation application) is answered 400 and nothing is
    created. *)
Theorem post_rejects (json_input : json) (s : @Eff.St W api_event) :
  (forall a, header_field json_input "accountId" <> Ok a)
  \/ header_field json_input "name" <> Ok (JStr (ia_name reg)) ->
  post reg json_input s
  = (Ok (message "error"
                 (babel reg "Requires a minimal Incorporation Filing."),
         HTTP_BAD_REQUEST), s).
Proof.
  intros Hbad. unfold post. unfold_eff.
  destruct (minimal_filing reg json_input) as [a|e] eqn:Hm.
  - exfalso. unfold minimal_filing in Hm.
    destruct (header_field json_input "accountId") as [a'|e1] eqn:Ea;
      cbn [rbind] in Hm; [|discriminate Hm].
    destruct (header_field json_input "name") as [t|e2] eqn:En;
      cbn [rbind] in Hm; [|discriminate Hm].
    destruct Hbad as [Hbad|Hbad]; [apply (Hbad a'); reflexivity|].
    apply Hbad. f_equal.
    destruct t; cbn in Hm; try discriminate Hm.
    destruct (String.eqb s0 (ia_name reg)) eqn:Es; cbn in Hm;
      [|discriminate Hm].
    apply String.eqb_eq in Es. now subst.
  - rewrite (minimal_filing_raises _ _ Hm). reflexivity.
Qed.

(** The name a bootstrap is registered under: the NR number of the request
    when it has one, the identifier of the bootstrap when reading it fails
    on a missing key. *)
Lemma post_after_bootstrap (json_input a : json) (b : Bootstrap)
      (s : @Eff.St W api_event) (w1 : W) :
  header_field json_input "accountId" = Ok a ->
  header_field json_input "name" = Ok (JStr (ia_name reg)) ->
  create_bootstrap reg a (fst s) = (Ok (Some b), w1) ->
  post reg json_input s
  = (let s1 := (w1, (snd s ++ [AEvCreateBootstrap a])%list) in
     match requested_nr json_input with
     | Raise e =>
         if is_KeyError e then
           match register_bootstrap reg b (bs_identifier b) w1 with
           | (Ok (Some _), w2) =>
               let (r, w3) := put_filing reg (bs_identifier b) w2 in
               (r, (w3, (snd s1 ++ [AEvRegisterBootstrap b (bs_identifier b);
                                    AEvPutFiling (bs_identifier b)])%list))
           | (Ok None, w2) =>
               (Ok (message "error"
                            (babel reg
                                   "Unable to create Incorporation Filing."),
                    HTTP_SERVICE_UNAVAILABLE),
                (snd (delete_bootstrap reg b w2),
                 (snd s1 ++ [AEvRegisterBootstrap b (bs_identifier b);
                             AEvDeleteBootstrap b])%list))
           | (Raise e', w2) =>
               (Raise e',
                (w2, (snd s1 ++ [AEvRegisterBootstrap b (bs_identifier b)])%list))
           end
         else (Raise e, s1)
     | Ok name =>
         match register_bootstrap reg b name w1 with
         | (Ok (Some _), w2) =>
             let (r, w3) := put_filing reg (bs_identifier b) w2 in
             (r, (w3, (snd s1 ++ [AEvRegisterBootstrap b name;
                                  AEvPutFiling (bs_identifier b)])%list))
         | (Ok None, w2) =>
             (Ok (message "error"
                          (babel reg "Unable to create Incorporation Filing."),
                  HTTP_SERVICE_UNAVAILABLE),
              (snd (delete_bootstrap reg b w2),
               (snd s1 ++ [AEvRegisterBootstrap b name;
                           AEvDeleteBootstrap b])%list))
         | (Raise e', w2) =>
             (Raise e', (w2, (snd s1 ++ [AEvRegisterBootstrap b name])%list))
         end
     end).
Proof.
  intros Ha Hn Hc. unfold post. unfold_eff.
  rewrite (minimal_filing_ok _ _ Ha Hn). cbn. rewrite Hc. cbn.
  destruct (requested_nr json_input) as [name|e]; cbn.
  - destruct (register_bootstrap reg b name w1) as [[[st|]|e'] w2]; cbn.
    + destruct (put_filing reg (bs_identifier b) w2) as [r w3].
      now rewrite <- app_assoc.
    + destruct (delete_bootstrap reg b w2) as [[[]|e'] w3]; cbn;
        now rewrite <- app_assoc.
    + reflexivity.
  - destruct (is_KeyError e); cbn; [|reflexivity].
    destruct (register_bootstrap reg b (bs_identifier b) w1)
      as [[[st|]|e'] w2]; cbn.
    + destruct (put_filing reg (bs_identifier b) w2) as [r w3].
      now rewrite <- app_assoc.
    + destruct (delete_bootstrap reg b w2) as [[[]|e'] w3]; cbn;
        now rewrite <- app_assoc.
    + reflexivity.
Qed.

End BusinessResourceFacts.

Section BusinessResourcePaths.
Context {W Row : Type} (reg : Registry W Row).

(** The request is a minimal incorporation filing for the account [a]. *)
Local Abbreviation minimal json_input a :=
  (header_field json_input "accountId" = Ok a
   /\ header_field json_input "name" = Ok (JStr (ia_name reg))).

(** The name the bootstrap [b] is registered under for the request. *)
Local Abbreviation named json_input b name :=
  (requested_nr json_input = Ok name
   \/ ((exists k, requested_nr json_input = Raise (KeyError k))
       /\ name = bs_identifier b)).

(** [POST] of a minimal filing for which no bootstrap can be created is
    answered 503 after the one creation call. *)
Theorem post_bootstrap_refused (json_input a : json)
        (s : @Eff.St W api_event) (w1 : W) :
  minimal json_input a ->
  create_bootstrap reg a (fst s) = (Ok None, w1) ->
  post reg json_input s
  = (Ok (message "error" (babel reg "Unable to create Incorporation Filing."),
         HTTP_SERVICE_UNAVAILABLE),
     (w1, (snd s ++ [AEvCreateBootstrap a])%list)).
Proof.
  intros [Ha Hn] Hc. unfold post.
  unfold Eff.bind, Eff.ret, Eff.lift, Eff.try_except, Eff.call.
  rewrite (minimal_filing_ok reg _ _ Ha Hn). cbn. rewrite Hc. reflexivity.
Qed.

(** X25: When the registration of the new bootstrap does not return a status,
    [POST] deletes that bootstrap, exactly once and whatever the deletion
    does (an exception of it is swallowed), and answers 503. *)
Theorem post_register_refused (json_input a name : json) (b : Bootstrap)
        (s : @Eff.St W api_event) (w1 w2 : W) :
  minimal json_input a ->
  create_bootstrap reg a (fst s) = (Ok (Some b), w1) ->
  named json_input b name ->
  register_bootstrap reg b name w1 = (Ok None, w2) ->
  post reg json_input s
  = (Ok (message "error" (babel reg "Unable to create Incorporation Filing."),
         HTTP_SERVICE_UNAVAILABLE),
     (snd (delete_bootstrap reg b w2),
      (snd s ++ [AEvCreateBootstrap a;
                 AEvRegisterBootstrap b name;
                 AEvDeleteBootstrap b])%list)).
Proof.
  intros [Ha Hn] Hc Hname Hr.
  rewrite (post_after_bootstrap reg json_input a b s w1 Ha Hn Hc). cbn zeta.
  destruct Hname as [Hnr|[[k Hnr] ->]]; rewrite Hnr; cbn [is_KeyError];
    rewrite Hr; cbn [snd]; now rewrite <- app_assoc.
Qed.

(** X26: A registered bootstrap is handed to the filing resource: [POST] answers
    what the filing PUT under the bootstrap identifier answers, after
    creating the bootstrap and registering it under the NR number of the
    request, or under its own identifier when the request has none. *)
Theorem post_created (json_input a name : json) (b : Bootstrap)
        (s : @Eff.St W api_event) (w1 w2 w3 : W) (status : Z)
        (r : res (json * Z)) :
  minimal json_input a ->
  create_bootstrap reg a (fst s) = (Ok (Some b), w1) ->
  named json_input b name ->
  register_bootstrap reg b name w1 = (Ok (Some status), w2) ->
  put_filing reg (bs_identifier b) w2 = (r, w3) ->
  post reg json_input s
  = (r,
     (w3, (snd s ++ [AEvCreateBootstrap a;
                     AEvRegisterBootstrap b name;
                     AEvPutFiling (bs_identifier b)])%list)).
Proof.
  intros [Ha Hn] Hc Hname Hr Hp.
  rewrite (post_after_bootstrap reg json_input a b s w1 Ha Hn Hc). cbn zeta.
  destruct Hname as [Hnr|[[k Hnr] ->]]; rewrite Hnr; cbn [is_KeyError];
    rewrite Hr, Hp; cbn [snd]; now rewrite <- app_assoc.
Qed.

(** X27: Only a missing key falls back to the bootstrap identifier: when reading
    the NR number of the request fails otherwise (a nameRequest that is
    null, say), [POST] raises that exception with the bootstrap created and
    neither registered nor deleted. *)
Theorem post_leaves_bootstrap (json_input a : json) (b : Bootstrap)
        (s : @Eff.St W api_event) (w1 : W) (e : exc) :
  minimal json_input a ->
  create_bootstrap reg a (fst s) = (Ok (Some b), w1) ->
  requested_nr json_input = Raise e ->
  is_KeyError e = false ->
  post reg json_input s
  = (Raise e, (w1, (snd s ++ [AEvCreateBootstrap a])%list)).
Proof.
  intros [Ha Hn] Hc Hnr Hk.
  rewrite (post_after_bootstrap reg json_input a b s w1 Ha Hn Hc). cbn zeta.
  rewrite Hnr, Hk. reflexivity.
Qed.

End BusinessResourcePaths.

Lemma get_lookup_witness :
  get (Scenario.registry (Ok None) (Ok None) (Ok None) (Ok tt)) "BC1234567"
      Scenario.api_start
  = (Ok (message "message" ("BC1234567" ++ " not found"), HTTP_NOT_FOUND),
     (tt, [AEvFindBusiness "BC1234567"])).
Proof.
  apply (proj1 (proj2 (get_lookup
                         (Scenario.registry (Ok None) (Ok None) (Ok None)
                                            (Ok tt))
                         "BC1234567" Scenario.api_start)) tt);
    reflexivity.
Defined.

Lemma post_rejects_witness :
  post (Scenario.registry (Ok None) (Ok (Some Demo.bootstrap)) (Ok (Some 201))
                          (Ok tt))
       (JObj [("filing",
               JObj [("header", JObj [("name", JStr "annualReport");
                                      ("accountId", JNum 7)])])])
       Scenario.api_start
  = (Ok (message "error" "Requires a minimal Incorporation Filing.",
         HTTP_BAD_REQUEST), Scenario.api_start).
Proof.
  apply (post_rejects
           (Scenario.registry (Ok None) (Ok (Some Demo.bootstrap))
                              (Ok (Some 201)) (Ok tt))).
  right. discriminate.
Defined.

Lemma post_bootstrap_refused_witness :
  post (Scenario.registry (Ok None) (Ok None) (Ok (Some 201)) (Ok tt))
       (Scenario.request []) Scenario.api_start
  = (Ok (message "error" "Unable to create Incorporation Filing.",
         HTTP_SERVICE_UNAVAILABLE),
     (tt, [AEvCreateBootstrap (JNum 7)])).
Proof.
  apply (post_bootstrap_refused
           (Scenario.registry (Ok None) (Ok None) (Ok (Some 201)) (Ok tt))
           (Scenario.request []) (JNum 7) Scenario.api_start tt).
  - split; reflexivity.
  - reflexivity.
Defined.

Lemma post_register_refused_witness :
  post (Scenario.registry (Ok None) (Ok (Some Demo.bootstrap)) (Ok None)
                          (Raise (OtherException "SQLAlchemyError")))
       (Scenario.request []) Scenario.api_start
  = (Ok (message "error" "Unable to create Incorporation Filing.",
         HTTP_SERVICE_UNAVAILABLE),
     (tt, [AEvCreateBootstrap (JNum 7);
           AEvRegisterBootstrap Demo.bootstrap (JStr "Tb31yQIuBw");
           AEvDeleteBootstrap Demo.bootstrap])).
Proof.
  apply (post_register_refused
           (Scenario.registry (Ok None) (Ok (Some Demo.bootstrap)) (Ok None)
                              (Raise (OtherException "SQLAlchemyError")))
           (Scenario.request []) (JNum 7) (JStr "Tb31yQIuBw") Demo.bootstrap
           Scenario.api_start tt tt).
  - split; reflexivity.
  - reflexivity.
  - right. split; [exists "incorporationApplication"|]; reflexivity.
  - reflexivity.
Defined.

Lemma post_created_witness :
  post (Scenario.registry (Ok None) (Ok (Some Demo.bootstrap))
                          (Ok (Some 201)) (Ok tt))
       (Scenario.request
          [("incorporationApplication",
            JObj [("nameRequest",
                   JObj [("legalType", JStr "BC");
                         ("nrNumber", JStr "NR 1234567")])])])
       Scenario.api_start
  = (Ok (JObj [("filing", JObj [("identifier", JStr "Tb31yQIuBw")])], 201),
     (tt, [AEvCreateBootstrap (JNum 7);
           AEvRegisterBootstrap Demo.bootstrap (JStr "NR 1234567");
           AEvPutFiling (JStr "Tb31yQIuBw")])).
Proof.
  apply (post_created
           (Scenario.registry (Ok None) (Ok (Some Demo.bootstrap))
                              (Ok (Some 201)) (Ok tt))
           _ (JNum 7) (JStr "NR 1234567") Demo.bootstrap
           Scenario.api_start tt tt tt 201).
  - split; reflexivity.
  - reflexivity.
  - left. reflexivity.
  - reflexivity.
  - reflexivity.
Defined.

Lemma post_leaves_bootstrap_witness :
  post (Scenario.registry (Ok None) (Ok (Some Demo.bootstrap))
                          (Ok (Some 201)) (Ok tt))
       (Scenario.request
          [("incorporationApplication", JObj [("nameRequest", JNull)])])
       Scenario.api_start
  = (Raise TypeError, (tt, [AEvCreateBootstrap (JNum 7)])).
Proof.
  apply (post_leaves_bootstrap
           (Scenario.registry (Ok None) (Ok (Some Demo.bootstrap))
                              (Ok (Some 201)) (Ok tt))
           _ (JNum 7) Demo.bootstrap Scenario.api_start tt TypeError).
  - split; reflexivity.
  - reflexivity.
  - reflexivity.
  - reflexivity.
Defined.

(** ** The prepared incorporation filing of the notification tests *)

Section Prepared.

Ltac bind_ok H :=
  repeat match type of H with
         | rbind ?r _ = Ok _ =>
             let E := fresh "E" in
             destruct r eqn:E; cbn [rbind] in H; [|discriminate H]
         end.

Lemma mark_completing_result (party role party' : json) :
  mark_completing party role = Ok party' ->
  exists role_type,
    Py.getitem role "roleType" = Ok role_type
    /\ (if is_completing_party role_type then marked party'
        else party' = party).
Proof.
  unfold mark_completing. intros H.
  destruct (Py.getitem role "roleType") as [rt|e] eqn:Ert;
    cbn [rbind] in H; [|discriminate H].
  exists rt. split; [reflexivity|].
  destruct (is_completing_party rt).
  - destruct (Py.getitem party "officer") as [officer|e] eqn:Eo;
      cbn [rbind] in H; [|discriminate H].
    destruct (getitem_ok _ _ _ Eo) as (fields & -> & _).
    destruct officer as [| | | | |low]; cbn [Py.setitem rbind] in H;
      try discriminate H.
    injection H as <-. unfold marked. cbn [Py.getitem].
    rewrite lookup_store_same. cbn [rbind Py.getitem].
    now rewrite lookup_store_same.
  - now injection H as <-.
Qed.

Lemma fold_mark_completing (roles : list json) :
  forall party party',
    fold_res mark_completing roles party = Ok party' ->
    (marked party -> marked party')
    /\ (Exists completing roles -> marked party')
    /\ (Forall (fun role => ~ completing role) roles -> party' = party).
Proof.
  induction roles as [|role roles IH]; intros party party'; cbn [fold_res].
  - intros [= ->]. repeat split; auto. intros H. inversion H.
  - destruct (mark_completing party role) as [p1|e] eqn:E; cbn [rbind];
      [|discriminate].
    intros H. destruct (IH _ _ H) as (Hkeep & Hex & Hall).
    destruct (mark_completing_result _ _ _ E) as (rt & Hrt & Hres).
    destruct (is_completing_party rt) eqn:Hc.
    + split; [auto|]. split; [auto|].
      intros Hno. inversion Hno as [|? ? Hrole _]; subst.
      exfalso. apply Hrole. exists rt. auto.
    + subst p1. split; [auto|]. split.
      * intros Hx. inversion Hx as [? ? (rt' & Hrt' & Hc')|]; subst; [|auto].
        rewrite Hrt in Hrt'. injection Hrt' as <-. congruence.
      * intros Hno. inversion Hno; subst. auto.
Qed.

(** X28: [prep_incorp_filing] gives the officer of a party the address
    'comp_party@email.com' as soon as one of the roles of the party is
    'Completing Party', and leaves a party without such a role as it was. *)
Theorem prep_party_marks (party party' : json) (roles : list json) :
  prep_party party = Ok party' ->
  listed_roles party = Ok roles ->
  (Exists completing roles -> marked party')
  /\ (Forall (fun role => ~ completing role) roles -> party' = party).
Proof.
  unfold prep_party, listed_roles. intros H Hr.
  destruct (Py.getitem party "roles") as [r|e]; cbn [rbind] in *;
    [|discriminate H].
  rewrite Hr in H. cbn [rbind] in H.
  destruct (fold_mark_completing _ _ _ H) as (_ & Hex & Hall). auto.
Qed.

(** X29: The payload prepared from a template carries the business section
    {identifier: <the identifier>}, whatever the template had there, and the
    contact address 'test@test.com'; outside filing.business and
    filing.incorporationApplication it is the template. *)
Theorem prep_incorp_json_sections (template identifier prepared : json) :
  prep_incorp_json template identifier = Ok prepared ->
  business_section prepared = Ok (JObj [("identifier", identifier)])
  /\ (contact <~ getitem3 prepared "filing" "incorporationApplication"
                          "contactPoint" ;;
      Py.getitem contact "email") = Ok (JStr "test@test.com")
  /\ (forall k, k <> "filing" ->
                Py.getitem prepared k = Py.getitem template k)
  /\ (forall k, k <> "business" -> k <> "incorporationApplication" ->
                getitem2 prepared "filing" k = getitem2 template "filing" k).
Proof.
  unfold prep_incorp_json, Py.deepcopy. intros H.
  destruct (Py.getitem template "filing") as [f|e] eqn:Ef;
    cbn [rbind] in H; [|discriminate H].
  destruct (getitem_ok _ _ _ Ef) as (top & -> & Htop).
  destruct f as [| | | | |ff]; cbn [Py.setitem rbind] in H;
    try discriminate H.
  destruct (Py.getitem (JObj (Py.store "business" _ ff))
                       "incorporationApplication") as [ia|e] eqn:Eia;
    cbn [rbind] in H; [|discriminate H].
  destruct (getitem_ok _ _ _ Eia) as (ff' & Hff & Hia).
  destruct (Py.getitem ia "parties") as [parties|e] eqn:Ep;
    cbn [rbind] in H; [|discriminate H].
  destruct (getitem_ok _ _ _ Ep) as (iaf & -> & _).
  destruct (Py.iter parties) as [elements|e]; cbn [rbind] in H;
    [|discriminate H].
  destruct (map_res prep_party elements) as [done|e]; cbn [rbind] in H;
    [|discriminate H].
  cbn [Py.setitem rbind] in H.
  destruct (Py.getitem (JObj (Py.store "parties" _ iaf)) "contactPoint")
    as [contact|e] eqn:Ec; cbn [rbind] in H; [|discriminate H].
  destruct contact as [| | | | |cf]; cbn [Py.setitem rbind] in H;
    try discriminate H.
  injection H as <-.
  unfold business_section, getitem3, getitem2. cbn [Py.getitem].
  rewrite !lookup_store_same. cbn [rbind Py.getitem].
  rewrite lookup_store_other by discriminate.
  rewrite !lookup_store_same. cbn [rbind Py.getitem].
  rewrite !lookup_store_same. cbn [rbind Py.getitem].
  rewrite !lookup_store_same.
  repeat split.
  - intros k Hk. now rewrite lookup_store_other.
  - intros k Hb Hi. rewrite Htop. cbn [rbind Py.getitem].
    now rewrite !lookup_store_other.
Qed.

End Prepared.

Lemma prep_party_marks_witness :
  marked (JObj [("officer",
                 JObj [("firstName", JStr "Joe");
                       ("email", JStr "comp_party@email.com")]);
                ("roles",
                 JArr [JObj [("roleType", JStr "Director")];
                       JObj [("roleType", JStr "Completing Party")]])]).
Proof.
  apply (proj1 (prep_party_marks
                  (JObj [("officer", JObj [("firstName", JStr "Joe")]);
                         ("roles",
                          JArr [JObj [("roleType", JStr "Director")];
                                JObj [("roleType",
                                       JStr "Completing Party")]])])
                  _
                  [JObj [("roleType", JStr "Director")];
                   JObj [("roleType", JStr "Completing Party")]]
                  eq_refl eq_refl)).
  right. left. exists (JStr "Completing Party"). split; reflexivity.
Defined.

Lemma prep_incorp_json_sections_witness :
  exists prepared,
    prep_incorp_json (Demo.stored [("identifier", JStr "T1234567")]
                                  Scenario.nr_filing)
                     (JStr "BC1234567") = Ok prepared
    /\ business_section prepared
       = Ok (JObj [("identifier", JStr "BC1234567")]).
Proof.
  eexists. split; [vm_compute; reflexivity|].
  apply (proj1 (prep_incorp_json_sections
                  (Demo.stored [("identifier", JStr "T1234567")]
                               Scenario.nr_filing)
                  (JStr "BC1234567") _ eq_refl)).
Defined.

(** * The early guards and the monitoring of the consumer, in full *)

Section Guards.
Context {W : Type} (svc : Services W).
Context {Office Party PartyRole ShareClass Alias : Type}.
Context (cmp : Components Office Party PartyRole ShareClass Alias).
Local Abbreviation Biz := (Business Office PartyRole ShareClass Alias).

(** The allocator client always leaves a POST in the trace. *)
Lemma get_next_corp_num_moves (lt : json) (s : St) :
  snd (get_next_corp_num svc lt s) <> s.
Proof.
  intros H.
  destruct (get_next_corp_num_single_post svc lt s) as [_ Htr].
  cbn zeta in Htr. rewrite H in Htr.
  apply (f_equal (@List.length event)) in Htr.
  rewrite List.length_app in Htr. cbn [List.length] in Htr. lia.
Qed.

Lemma get_raises (v : json) (k : string) (e : exc) :
  Py.get v k = Raise e -> e = AttributeError.
Proof.
  destruct v; cbn; try (intros [= <-]; reflexivity).
  destruct (Py.lookup k fields); discriminate.
Qed.

Lemma getitem_raises_no_queue (v : json) (k : string) (msg : string) :
  Py.getitem v k <> Raise (QueueException msg).
Proof.
  destruct v; cbn; try discriminate.
  destruct (Py.lookup k fields); discriminate.
Qed.

(** C2 (amended): on a filing JSON whose incorporationApplication is absent
    or falsy (null, the empty object), and on a truthy business argument,
    [process] raises a [QueueException] whose message ends with the filing
    record's identifier, before any call is issued and with no Business
    built; and these are exactly the cases in which it raises a
    [QueueException] before any call. *)
Theorem process_early_guards_exact (business : option Biz)
        (fields : list (string * json)) (ia : json) (rec : Filing) (s : St) :
  Py.get (JObj fields) "incorporationApplication" = Ok ia ->
  (Py.truthy ia = false ->
   process svc cmp business (JObj fields) rec s
   = (Raise (QueueException
               ("IA legal_filing:incorporationApplication missing from "
                ++ Py.str_int (filing_id rec))), s))
  /\ (Py.truthy ia = true -> business <> None ->
      process svc cmp business (JObj fields) rec s
      = (Raise (QueueException
                  ("Business Already Exist: IA legal_filing:incorporationApplication "
                   ++ Py.str_int (filing_id rec))), s))
  /\ (forall msg,
         process svc cmp business (JObj fields) rec s
         = (Raise (QueueException msg), s) ->
         Py.truthy ia = false \/ business <> None).
Proof.
  intros Hia. split; [|split].
  - intros Hf. unfold process. unfold_monad. rewrite Hia, Hf. reflexivity.
  - intros Ht Hb. unfold process. unfold_monad. rewrite Hia, Ht.
    destruct business; [reflexivity | contradiction].
  - intros msg H.
    destruct (Py.truthy ia) eqn:Ht; [|left; reflexivity].
    destruct business as [b|]; [right; discriminate|].
    exfalso. revert H. unfold process. unfold_monad.
    rewrite Hia, Ht. cbn [negb].
    destruct (Py.get ia "nameRequest") as [info|e] eqn:Hinfo.
    + destruct (Py.getitem info "legalType") as [lt|e] eqn:Hlt.
      * pose proof (get_next_corp_num_moves lt s) as Hm.
        destruct (get_next_corp_num svc lt s) as [[corp|e] s1];
          cbn [snd] in Hm.
        -- destruct (negb (Py.truthy_str corp));
             [intros H; apply Hm; congruence|].
           destruct (update_business_info _ _ _ _ _) as [[b0|]|e];
             try (intros H; apply Hm; congruence).
           destruct (attach_children cmp b0 ia) as [b1|e];
             [|intros H; apply Hm; congruence].
           destruct (finalize b1 rec) as [[b2 rec2]|e];
             intros H; apply Hm; congruence.
        -- intros H; apply Hm; congruence.
      * intros H. assert (E : e = QueueException msg) by congruence.
        subst e. exact (getitem_raises_no_queue _ _ _ Hlt).
    + intros H. assert (E : e = QueueException msg) by congruence.
      subst e. apply get_raises in Hinfo. discriminate.
Qed.

End Guards.

Lemma process_early_guards_exact_witness :
  process (Demo.happy 42) Demo.components None Demo.no_application
          Demo.full_record Demo.start
  = (Raise (QueueException
              ("IA legal_filing:incorporationApplication missing from "
               ++ Py.str_int 15)), Demo.start)
  /\ process (Demo.happy 42) Demo.components (Some Demo.some_business)
             Demo.full_filing Demo.full_record Demo.start
     = (Raise (QueueException
                 ("Business Already Exist: IA legal_filing:incorporationApplication "
                  ++ Py.str_int 15)), Demo.start).
Proof.
  split.
  - apply (proj1 (process_early_guards_exact (Demo.happy 42) Demo.components
                    None
                    [("header",
                      JObj [("name", JStr "incorporationApplication")])]
                    JNull Demo.full_record Demo.start eq_refl)).
    reflexivity.
  - apply (proj1 (proj2 (process_early_guards_exact
                           (Demo.happy 42) Demo.components
                           (Some Demo.some_business)
                           [("header",
                             JObj [("name", JStr "incorporationApplication")]);
                            ("incorporationApplication",
                             JObj [("nameRequest", Demo.name_request);
                                   ("offices", Demo.office);
                                   ("parties", JArr [Demo.party]);
                                   ("shareClasses", JArr [Demo.share_class])])]
                           _ Demo.full_record Demo.start eq_refl))).
    + reflexivity.
    + discriminate.
Defined.

(** A filing JSON that has the incorporationApplication key, with the empty
    object as its value, processed with no Business resolved: neither of the
    two cases of the claim, and [process] raises the [QueueException] of the
    first guard all the same. *)
Lemma process_empty_application_guarded :
  Py.lookup "incorporationApplication"
            [("header", JObj [("name", JStr "incorporationApplication")]);
             ("incorporationApplication", JObj [])]
  = Some (JObj [])
  /\ process (Demo.happy 42) Demo.components None Demo.empty_application
             Demo.full_record Demo.start
     = (Raise (QueueException
                 "IA legal_filing:incorporationApplication missing from 15"),
        Demo.start).
Proof. split; reflexivity. Qed.

Section Monitoring.
Context {W : Type} (svc : Services W).
Context {Office PartyRole ShareClass Alias : Type}.
Local Abbreviation Biz := (Business Office PartyRole ShareClass Alias).

Local Abbreviation consume_body business :=
  (JObj [("consume", JObj [("corpNum", json_of_str (identifier business))])]).

Local Abbreviation alarm filing :=
  (EvSentry (ConsumeNRError (filing_id filing))).




End Monitoring.


